(** * RBC Direct Investing activity-statement importer

    A shallow embedding of
    [lib/python/beancount2/imports/sources/rbcinvesting.py]: the row
    normalizer [fixup_row], its helper [decimal], and the body of the
    row loop of [import_excel_file], followed by the properties of the
    specification that concern them.

    Python text is modelled as [string], one character per code point:
    the characters are the code points below 256 (ASCII and the Latin-1
    range of Unicode, so that [ascii_of_nat 233] is the letter e with
    an acute accent); text with a character beyond U+00FF is outside
    the model.  Exceptions are modelled by the [result] type.  The
    library calls of the source ([decimal.Decimal], [datetime.strptime],
    the [re] patterns, [str.join]) are modelled after the behaviour of
    the Python library on such text, with its Unicode-aware classes
    [\w], [\d] and white space restricted to these code points.  The conversion of the spreadsheet
    by [ssconvert], the CSV reader and the progress line printed per
    file are outside the model: [import_excel_file] starts from the rows
    that the reader yields. *)

From Stdlib Require Import Bool Arith NArith ZArith List Ascii String Lia.
From Stdlib Require Import DecimalString DecimalN DecimalPos DecimalFacts.
Import ListNotations.

Local Open Scope string_scope.

(** ** Text helpers (the [str] methods and character classes in use) *)

Definition code (c : ascii) : nat := nat_of_ascii c.

(** The class [[0-9]] of the regular expressions, and the class [\d]
    of the numeric literals and of [strptime]: below 256 the only
    decimal digits of Unicode are the ASCII ones. *)
Definition is_digit (c : ascii) : bool :=
  (48 <=? code c)%nat && (code c <=? 57)%nat.

(** [str.isspace], the white space that [str.strip] removes: TAB, LF,
    VT, FF, CR, the four separators FS..US, the space, and in the
    Latin-1 range NEL (U+0085) and the no-break space (U+00A0). *)
Definition is_space (c : ascii) : bool :=
  ((9 <=? code c)%nat && (code c <=? 13)%nat)
  || ((28 <=? code c)%nat && (code c <=? 32)%nat)
  || (code c =? 133)%nat || (code c =? 160)%nat.

(** Is the code point between [lo] and [hi]? *)
Definition between (lo hi : nat) (c : ascii) : bool :=
  (lo <=? code c)%nat && (code c <=? hi)%nat.

(** The class [\w] of a pattern on text, which is Unicode-aware: the
    ASCII letters, digits and underscore, and in the Latin-1 range the
    letters (the ordinal indicators U+00AA and U+00BA, the micro sign
    U+00B5, U+00C0..U+00FF without the signs U+00D7 and U+00F7) and the
    numeric characters (the superscripts U+00B2, U+00B3, U+00B9 and the
    fractions U+00BC..U+00BE).  The boundary [\b] is defined from it. *)
Definition is_word (c : ascii) : bool :=
  is_digit c
  || between 65 90 c || between 97 122 c || (code c =? 95)%nat
  || (code c =? 170)%nat || between 178 179 c || (code c =? 181)%nat
  || between 185 186 c || between 188 190 c
  || between 192 214 c || between 216 246 c || between 248 255 c.

(** Lower-casing of an ASCII letter, for the case-insensitive literals
    of the number syntax (no character of the Latin-1 range matches an
    ASCII letter when case is ignored). *)
Definition lower (c : ascii) : ascii :=
  if ((65 <=? code c)%nat && (code c <=? 90)%nat)
  then ascii_of_nat (code c + 32) else c.

Fixpoint lower_string (s : string) : string :=
  match s with
  | EmptyString => EmptyString
  | String c r => String (lower c) (lower_string r)
  end.

(** Longest prefix of characters satisfying [p], and the rest. *)
Fixpoint span (p : ascii -> bool) (s : string) : string * string :=
  match s with
  | EmptyString => (EmptyString, EmptyString)
  | String c r =>
      if p c then let '(a, b) := span p r in (String c a, b)
      else (EmptyString, s)
  end.

(** Does the text start with a character satisfying [p]? *)
Definition starts (p : ascii -> bool) (s : string) : bool :=
  match s with String c _ => p c | EmptyString => false end.

Fixpoint forallb_string (p : ascii -> bool) (s : string) : bool :=
  match s with
  | EmptyString => true
  | String c r => p c && forallb_string p r
  end.

(** [s.replace(c, '')] for a one-character [c]. *)
Fixpoint remove_char (c : ascii) (s : string) : string :=
  match s with
  | EmptyString => EmptyString
  | String d r =>
      if Ascii.eqb d c then remove_char c r else String d (remove_char c r)
  end.

Fixpoint lstrip (s : string) : string :=
  match s with
  | EmptyString => EmptyString
  | String c r => if is_space c then lstrip r else s
  end.

Fixpoint rstrip (s : string) : string :=
  match s with
  | EmptyString => EmptyString
  | String c r =>
      match rstrip r with
      | EmptyString => if is_space c then EmptyString else String c EmptyString
      | r' => String c r'
      end
  end.

(** [s.strip()] *)
Definition strip (s : string) : string := rstrip (lstrip s).

(** [sep.join(parts)] *)
Fixpoint join (sep : string) (parts : list string) : string :=
  match parts with
  | [] => ""
  | [x] => x
  | x :: rest => x ++ sep ++ join sep rest
  end.

Definition nonempty (s : string) : bool :=
  match s with EmptyString => false | _ => true end.

(** ** Integers as digit strings ([int(s)], [str(n)], [len(str(n))]) *)

Definition digit_of_char (c : ascii) (d : Decimal.uint) : Decimal.uint :=
  match (code c - 48)%nat with
  | 0%nat => Decimal.D0 d | 1%nat => Decimal.D1 d | 2%nat => Decimal.D2 d
  | 3%nat => Decimal.D3 d | 4%nat => Decimal.D4 d | 5%nat => Decimal.D5 d
  | 6%nat => Decimal.D6 d | 7%nat => Decimal.D7 d | 8%nat => Decimal.D8 d
  | _ => Decimal.D9 d
  end.

Fixpoint uint_of_digits (s : string) : Decimal.uint :=
  match s with
  | EmptyString => Decimal.Nil
  | String c r => digit_of_char c (uint_of_digits r)
  end.

(** [int(s)] for a string [s] of digits (leading zeros allowed; the
    empty string counts as zero, the callers pass ['0'] for it). *)
Definition int_of_digits (s : string) : N := N.of_uint (uint_of_digits s).

(** [str(n)] for a non-negative integer. *)
Definition str_of_N (n : N) : string := NilEmpty.string_of_uint (N.to_uint n).

(** [len(str(n))] *)
Definition ndigits (n : N) : Z := Z.of_nat (String.length (str_of_N n)).

(** ['0' * k] *)
Fixpoint zeros (k : nat) : string :=
  match k with O => "" | S k' => String "0" (zeros k') end.

(** [s[:k]] and [s[k:]] *)
Fixpoint take (k : nat) (s : string) : string :=
  match k, s with
  | S k', String c r => String c (take k' r)
  | _, _ => ""
  end.

Fixpoint drop (k : nat) (s : string) : string :=
  match k, s with
  | S k', String _ r => drop k' r
  | _, _ => s
  end.

(** ** Exceptions and Python values *)

(** Modelled from the spec: the [Decimal] type that the source imports
    from [beancount2.core.data] (not under src/), the spec's
    "arbitrary-precision decimal numbers".  It is Python's
    [decimal.Decimal]: a finite number is a sign, an integer coefficient
    and a power-of-ten exponent (so [2.50] and [2.5] are different
    values), next to the infinities and the quiet and signalling NaNs
    with their diagnostic payload (0 for none). *)
Inductive Decimal : Type :=
| Finite (sign : bool) (coeff : N) (exp : Z)
| Infinity (sign : bool)
| NaN (sign : bool) (signaling : bool) (payload : N).

(** [datetime.date] *)
Record Date : Type := mkDate { year : nat; month : nat; day : nat }.

(** The values a field of the row tuple can hold while [fixup_row]
    rewrites it. *)
Inductive pyval : Type :=
| PStr (s : string)
| PDec (d : Decimal)
| PDate (d : Date).

Inductive exn : Type :=
| ValueError (msg : string)
| ValueError_strptime (data_string : string)
    (* the ValueError of [strptime]; its message is not modelled *)
| InvalidOperation      (* decimal: bad literal, signalling NaN, Inf * 0 *)
| DivisionByZero
| Overflow
| TypeError
| AssertionError (arg : option pyval)
| UnboundLocalError (name : string).

Inductive result (A : Type) : Type :=
| Ok (a : A)
| Raise (e : exn).
Arguments Ok {A} a.
Arguments Raise {A} e.

Definition bind {A B} (r : result A) (k : A -> result B) : result B :=
  match r with
  | Ok a => k a
  | Raise e => Raise e
  end.

Declare Scope py_scope.
Delimit Scope py_scope with py.
Notation "x <- r ;; k" := (bind r (fun x => k))
  (at level 61, r at next level, right associativity) : py_scope.
Notation "r ;;; k" := (bind r (fun _ => k))
  (at level 61, right associativity) : py_scope.
Local Open Scope py_scope.

(** [assert cond] and [assert cond, arg] *)
Definition assert (cond : bool) (arg : option pyval) : result unit :=
  if cond then Ok tt else Raise (AssertionError arg).

(** ** The decimal library *)

(** *** Construction from a string: [Decimal(s)] *)

(** An optional sign [[-+]?]; the flag is true for a minus. *)
Definition parse_sign (s : string) : bool * string :=
  match s with
  | String c r =>
      if Ascii.eqb c "-" then (true, r)
      else if Ascii.eqb c "+" then (false, r)
      else (false, s)
  | EmptyString => (false, s)
  end.

(** The lookahead [(?=\d|\.\d)]. *)
Definition lookahead_digit (s : string) : bool :=
  match s with
  | String c r =>
      is_digit c
      || (Ascii.eqb c "."
          && match r with String d _ => is_digit d | EmptyString => false end)
  | EmptyString => false
  end.

(** The exponent [[-+]?\d+] up to the end of the string: [int(exp)]. *)
Definition parse_exponent (s : string) : option Z :=
  let '(neg, r) := parse_sign s in
  if nonempty r && forallb_string is_digit r
  then Some (if neg then (- Z.of_N (int_of_digits r))%Z
             else Z.of_N (int_of_digits r))
  else None.

(** The finite alternative of the number syntax,
    [(?=\d|\.\d)(\d* )(\.(\d* ))?(E([-+]?\d+))?\Z], ignoring case.
    Each piece is a maximal run followed by a character outside its
    class, so the greedy match is the only candidate.  Returns the
    coefficient [int(intpart+fracpart)] and the exponent
    [exp - len(fracpart)]. *)
Definition parse_finite (s : string) : option (N * Z) :=
  if lookahead_digit s then
    let '(intpart, r1) := span is_digit s in
    let '(fracpart, r2) :=
      match r1 with
      | String c r =>
          if Ascii.eqb c "." then span is_digit r else (EmptyString, r1)
      | EmptyString => (EmptyString, r1)
      end in
    let coeff := int_of_digits (intpart ++ fracpart) in
    let flen := Z.of_nat (String.length fracpart) in
    match r2 with
    | EmptyString => Some (coeff, (0 - flen)%Z)
    | String e r3 =>
        if Ascii.eqb (lower e) "e" then
          match parse_exponent r3 with
          | Some x => Some (coeff, (x - flen)%Z)
          | None => None
          end
        else None
    end
  else None.

Fixpoint strip_prefix (p s : string) : option string :=
  match p, s with
  | EmptyString, _ => Some s
  | String a p', String b s' =>
      if Ascii.eqb a b then strip_prefix p' s' else None
  | String _ _, EmptyString => None
  end.

(** The payload [\d*\Z] of a NaN: [str(int(diag or '0')).lstrip('0')]. *)
Definition parse_diag (s : string) : option N :=
  if forallb_string is_digit s then Some (int_of_digits s) else None.

(** The special alternatives [Inf(inity)?\Z] and [(s)?NaN(\d* )\Z],
    ignoring case. *)
Definition parse_special (sign : bool) (s : string) : option Decimal :=
  let l := lower_string s in
  if String.eqb l "inf" || String.eqb l "infinity" then Some (Infinity sign)
  else
    match strip_prefix "snan" l with
    | Some diag => option_map (NaN sign true) (parse_diag diag)
    | None =>
        match strip_prefix "nan" l with
        | Some diag => option_map (NaN sign false) (parse_diag diag)
        | None => None
        end
    end.

(** [Decimal(s)]: surrounding white space and underscores are dropped
    (the underscores since Python 3.6), then the whole text must be a
    number; anything else raises [InvalidOperation].  The exponent of
    the literal is any integer, as in the library's implementation in
    Python; its implementation in C has bounded exponents and refuses
    a literal whose exponent is beyond them (from about [10^18]). *)
Definition Decimal_of_string (s : string) : result Decimal :=
  let '(sign, r) := parse_sign (remove_char "_" (strip s)) in
  match parse_finite r with
  | Some (c, e) => Ok (Finite sign c e)
  | None =>
      match parse_special sign r with
      | Some d => Ok d
      | None => Raise InvalidOperation
      end
  end.

(** [Decimal()] and [Decimal(n)] for an integer literal [n >= 0]. *)
Definition Decimal_zero : Decimal := Finite false 0 0.
Definition Decimal_of_N (n : N) : Decimal := Finite false n 0.

(** *** Rendering: [str(d)] *)

Definition sign_str (sign : bool) : string := if sign then "-" else "".

(** ["%+d" % z] *)
Definition format_signed (z : Z) : string :=
  ((if (z <? 0)%Z then "-" else "+") ++ str_of_N (Z.abs_N z))%string.

(** [Decimal.__str__]: plain notation when the exponent is at most zero
    and the number has more than -6 digits left of the point, scientific
    notation with one digit before the point otherwise. *)
Definition Decimal_str (d : Decimal) : string :=
  match d with
  | Infinity s => sign_str s ++ "Infinity"
  | NaN s sig p =>
      sign_str s ++ (if sig then "sNaN" else "NaN")
      ++ (if (p =? 0)%N then "" else str_of_N p)
  | Finite s c e =>
      let int := str_of_N c in
      let len := Z.of_nat (String.length int) in
      let leftdigits := (e + len)%Z in
      let dotplace :=
        if (e <=? 0)%Z && (-6 <? leftdigits)%Z then leftdigits else 1%Z in
      let '(intpart, fracpart) :=
        if (dotplace <=? 0)%Z
        then ("0", "." ++ zeros (Z.to_nat (- dotplace)) ++ int)
        else if (len <=? dotplace)%Z
        then (int ++ zeros (Z.to_nat (dotplace - len)), "")
        else (take (Z.to_nat dotplace) int,
              "." ++ drop (Z.to_nat dotplace) int) in
      let exp :=
        if (leftdigits =? dotplace)%Z then ""
        else "E" ++ format_signed (leftdigits - dotplace) in
      sign_str s ++ intpart ++ fracpart ++ exp
  end.

(** [bool(d)]: false exactly for the finite zeros. *)
Definition Decimal_bool (d : Decimal) : bool :=
  match d with
  | Finite _ c _ => negb (c =? 0)%N
  | _ => true
  end.

(** *** Arithmetic, in the library's default context

    Precision 28, rounding half-even, exponent range
    [-999999 .. 999999]; the signals [InvalidOperation],
    [DivisionByZero] and [Overflow] are trapped (raised), the others
    only set flags. *)

Definition prec : Z := 28.
Definition Emax : Z := 999999.
Definition Emin : Z := -999999.
Definition Etiny : Z := Emin - prec + 1.
Definition Etop : Z := Emax - prec + 1.

Definition pow10 (k : Z) : N := (10 ^ Z.to_N k)%N.

(** [_fix_nan]: a payload longer than the precision keeps its last
    [prec] digits. *)
Definition fix_nan (s sig : bool) (p : N) : Decimal :=
  NaN s sig (p mod pow10 prec).

(** [_fix] on a finite number: clamp the exponent of a zero, round a
    coefficient of more than [prec] digits (or below [Etiny]) half-even,
    raise [Overflow] above [Emax]. *)
Definition fix_finite (s : bool) (c : N) (e : Z) : result Decimal :=
  if (c =? 0)%N then Ok (Finite s 0 (Z.min (Z.max e Etiny) Emax))
  else
    let exp_min0 := (ndigits c + e - prec)%Z in
    if (Etop <? exp_min0)%Z then Raise Overflow
    else
      let exp_min := Z.max exp_min0 Etiny in
      if (e <? exp_min)%Z then
        let digits := (ndigits c + e - exp_min)%Z in
        let '(c1, digits1) :=
          if (digits <? 0)%Z then (1%N, 0%Z) else (c, digits) in
        let cut := (ndigits c1 - digits1)%Z in
        let q := (c1 / pow10 cut)%N in
        let r := (c1 mod pow10 cut)%N in
        let half := (5 * pow10 (cut - 1))%N in
        let up := if (r =? half)%N then N.odd q else (half <? r)%N in
        let coeff := if up then (q + 1)%N else q in
        let '(coeff', exp_min') :=
          if up && (prec <? ndigits coeff)%Z
          then ((coeff / 10)%N, (exp_min + 1)%Z) else (coeff, exp_min) in
        if (Etop <? exp_min')%Z then Raise Overflow
        else Ok (Finite s coeff' exp_min')
      else Ok (Finite s c e).

Definition is_zero (d : Decimal) : bool := negb (Decimal_bool d).

(** [Decimal.__neg__] *)
Definition dec_neg (d : Decimal) : result Decimal :=
  match d with
  | NaN _ true _ => Raise InvalidOperation
  | NaN s false p => Ok (fix_nan s false p)
  | Infinity s => Ok (Infinity (negb s))
  | Finite s c e =>
      if (c =? 0)%N then fix_finite false c e else fix_finite (negb s) c e
  end.

(** [_check_nans] of a binary operation: a signalling NaN raises, a
    quiet one is the result. *)
Definition check_nans (a b : Decimal) : option (result Decimal) :=
  match a, b with
  | NaN _ true _, _ => Some (Raise InvalidOperation)
  | _, NaN _ true _ => Some (Raise InvalidOperation)
  | NaN s false p, _ => Some (Ok (fix_nan s false p))
  | _, NaN s false p => Some (Ok (fix_nan s false p))
  | _, _ => None
  end.

Definition sign_of (d : Decimal) : bool :=
  match d with
  | Finite s _ _ => s
  | Infinity s => s
  | NaN s _ _ => s
  end.

(** [Decimal.__mul__] *)
Definition dec_mul (a b : Decimal) : result Decimal :=
  let sign := xorb (sign_of a) (sign_of b) in
  match check_nans a b with
  | Some r => r
  | None =>
      match a, b with
      | Finite _ ca ea, Finite _ cb eb => fix_finite sign (ca * cb) (ea + eb)
      | Infinity _, _ =>
          if is_zero b then Raise InvalidOperation else Ok (Infinity sign)
      | _, _ =>
          if is_zero a then Raise InvalidOperation else Ok (Infinity sign)
      end
  end.

(** The loop of an exact division: drop trailing zeros while the
    exponent is below the ideal one. *)
Fixpoint strip_zeros (room : nat) (coeff : N) (exp : Z) : N * Z :=
  match room with
  | O => (coeff, exp)
  | S room' =>
      if (coeff mod 10 =? 0)%N
      then strip_zeros room' (coeff / 10)%N (exp + 1)%Z
      else (coeff, exp)
  end.

(** [Decimal.__truediv__] *)
Definition dec_div (a b : Decimal) : result Decimal :=
  let sign := xorb (sign_of a) (sign_of b) in
  match check_nans a b with
  | Some r => r
  | None =>
      match a, b with
      | Infinity _, Infinity _ => Raise InvalidOperation
      | Infinity _, _ => Ok (Infinity sign)
      | _, Infinity _ => Ok (Finite sign 0 Etiny)
      | Finite _ ca ea, Finite _ cb eb =>
          if (cb =? 0)%N then
            if (ca =? 0)%N then Raise InvalidOperation
            else Raise DivisionByZero
          else if (ca =? 0)%N then fix_finite sign 0 (ea - eb)
          else
            let shift := (ndigits cb - ndigits ca + prec + 1)%Z in
            let exp := (ea - eb - shift)%Z in
            let '(num, den) :=
              if (0 <=? shift)%Z then ((ca * pow10 shift)%N, cb)
              else (ca, (cb * pow10 (- shift))%N) in
            let coeff := (num / den)%N in
            let remainder := (num mod den)%N in
            let '(coeff', exp') :=
              if negb (remainder =? 0)%N
              then ((if (coeff mod 5 =? 0)%N then coeff + 1 else coeff)%N, exp)
              else strip_zeros (Z.to_nat (ea - eb - exp)) coeff exp in
            fix_finite sign coeff' exp'
      | _, _ => Raise InvalidOperation
      end
  end.

(** ** Dates: [datetime.strptime(s, '%Y-%m-%d').date()] and [str(date)] *)

Definition digit_val (c : ascii) : nat := (code c - 48)%nat.

Definition in_range (lo hi c : ascii) : bool :=
  (code lo <=? code c)%nat && (code c <=? code hi)%nat.

(** The directive [%m], [(1[0-2]|0[1-9]|[1-9])]: the first alternative
    that matches.  A later alternative is a proper prefix of it and
    would be followed by a digit, where the format wants ["-"]. *)
Definition re_month (s : string) : option (nat * string) :=
  match s with
  | String a (String b r) =>
      if Ascii.eqb a "1" && in_range "0" "2" b
      then Some ((10 + digit_val b)%nat, r)
      else if Ascii.eqb a "0" && in_range "1" "9" b
      then Some (digit_val b, r)
      else if in_range "1" "9" a then Some (digit_val a, String b r)
      else None
  | String a EmptyString =>
      if in_range "1" "9" a then Some (digit_val a, EmptyString) else None
  | EmptyString => None
  end.

(** The directive [%d], [(3[0-1]|[1-2]\d|0[1-9]|[1-9]| [1-9])]: the
    first alternative that matches; it ends the pattern, and what
    follows it is "unconverted data". *)
Definition re_day (s : string) : option (nat * string) :=
  match s with
  | String a (String b r) =>
      if Ascii.eqb a "3" && in_range "0" "1" b
      then Some ((30 + digit_val b)%nat, r)
      else if in_range "1" "2" a && is_digit b
      then Some ((10 * digit_val a + digit_val b)%nat, r)
      else if Ascii.eqb a "0" && in_range "1" "9" b
      then Some (digit_val b, r)
      else if in_range "1" "9" a then Some (digit_val a, String b r)
      else if Ascii.eqb a " " && in_range "1" "9" b
      then Some (digit_val b, r)
      else None
  | String a EmptyString =>
      if in_range "1" "9" a then Some (digit_val a, EmptyString) else None
  | EmptyString => None
  end.

Definition is_leap (y : nat) : bool :=
  (y mod 4 =? 0)%nat && (negb (y mod 100 =? 0)%nat || (y mod 400 =? 0)%nat).

Definition days_in_month (y m : nat) : nat :=
  match m with
  | 1 | 3 | 5 | 7 | 8 | 10 | 12 => 31
  | 4 | 6 | 9 | 11 => 30
  | 2 => if is_leap y then 29 else 28
  | _ => 0
  end%nat.

(** The constructor's range check: year 1..9999 (below [100 * 100]), a
    month, a day of that month. *)
Definition valid_date (d : Date) : bool :=
  (1 <=? year d)%nat && (year d <? 100 * 100)%nat
  && (1 <=? month d)%nat && (month d <=? 12)%nat
  && (1 <=? day d)%nat && (day d <=? days_in_month (year d) (month d))%nat.

(** [datetime.datetime.strptime(s, '%Y-%m-%d').date()]: four digits, a
    month, a day, nothing after them, and a date that exists. *)
Definition strptime (s : string) : result Date :=
  match s with
  | String y1 (String y2 (String y3 (String y4 (String h1 r)))) =>
      if is_digit y1 && is_digit y2 && is_digit y3 && is_digit y4
         && Ascii.eqb h1 "-" then
        match re_month r with
        | Some (m, String h2 r') =>
            match (if Ascii.eqb h2 "-" then re_day r' else None) with
            | Some (d, EmptyString) =>
                let y := (1000 * digit_val y1 + 100 * digit_val y2
                          + 10 * digit_val y3 + digit_val y4)%nat in
                if valid_date (mkDate y m d) then Ok (mkDate y m d)
                else Raise (ValueError_strptime s)
            | _ => Raise (ValueError_strptime s)
            end
        | _ => Raise (ValueError_strptime s)
        end
      else Raise (ValueError_strptime s)
  | _ => Raise (ValueError_strptime s)
  end.

(** ["%0<w>d" % n] *)
Definition pad (w n : nat) : string :=
  let s := str_of_N (N.of_nat n) in zeros (w - String.length s) ++ s.

(** [str(date)], the ISO form [YYYY-MM-DD]. *)
Definition Date_str (d : Date) : string :=
  pad 4 (year d) ++ "-" ++ pad 2 (month d) ++ "-" ++ pad 2 (day d).

Definition Date_eqb (a b : Date) : bool :=
  (year a =? year b)%nat && (month a =? month b)%nat && (day a =? day b)%nat.

(** ** The regular expressions of the importer *)

(** [re.match('1000THS', s)]: the pattern at the start of [s]. *)
Definition re_match_1000THS (s : string) : bool := String.prefix "1000THS" s.

(** Is there a word boundary between a character before (none at the
    start of the text) and the text [s] after? *)
Definition starts_word (s : string) : bool := starts is_word s.

(** [re.search(r'\bDIST\b', s)], scanning left to right; [prev] tells
    whether the character before [s] is a word character.  ["DIST"]
    begins and ends with word characters, so the boundaries ask for a
    non-word character (or the end of the text) on either side. *)
Fixpoint search_DIST_from (prev : bool) (s : string) : bool :=
  match s with
  | EmptyString => false
  | String c r =>
      (negb prev
       && match strip_prefix "DIST" s with
          | Some rest => negb (starts_word rest)
          | None => false
          end)
      || search_DIST_from (is_word c) r
  end.

Definition re_search_DIST (s : string) : bool := search_DIST_from false s.

Definition is_digit_or_comma (c : ascii) : bool :=
  is_digit c || Ascii.eqb c ",".

(** A match of [([0-9,]+\.[0-9]+)] at the start of [s]: the group.
    The first run is maximal and must be followed by the point (a
    shorter run would be followed by a digit or a comma), the second is
    greedy. *)
Definition match_amount (s : string) : option string :=
  let '(run, r) := span is_digit_or_comma s in
  match r with
  | String c r' =>
      let '(frac, _) := span is_digit r' in
      if nonempty run && Ascii.eqb c "." && nonempty frac
      then Some (run ++ "." ++ frac) else None
  | EmptyString => None
  end.

(** [re.search(r'\$([0-9,]+\.[0-9]+)', s)]: group 1 of the leftmost
    match. *)
Fixpoint re_search_amount (s : string) : option string :=
  match s with
  | EmptyString => None
  | String c r =>
      if Ascii.eqb c "$" then
        match match_amount r with
        | Some g => Some g
        | None => re_search_amount r
        end
      else re_search_amount r
  end.

(** A match of [([0-9]+) SHS] at the start of [s]: the group. *)
Definition match_shares (s : string) : option string :=
  let '(run, r) := span is_digit s in
  if nonempty run && String.prefix " SHS" r then Some run else None.

(** [re.search(r'\b([0-9]+) SHS', s)]: group 1 of the leftmost match;
    the boundary wants no word character before the first digit. *)
Fixpoint search_shares_from (prev : bool) (s : string) : option string :=
  match s with
  | EmptyString => None
  | String c r =>
      match (if prev then None else match_shares s) with
      | Some g => Some g
      | None => search_shares_from (is_word c) r
      end
  end.

Definition re_search_shares (s : string) : option string :=
  search_shares_from false s.

(** ** Rows *)

(** The named tuple [Row] that the CSV reader yields, with the columns
    of the statement in order.  The reader fills every field with text;
    [fixup_row] replaces the dates and the numbers by typed values.  The
    record is parametric in the types of its text, number and date
    fields so that the three stages share the field names. *)
Record Row (Txt Num Dt : Type) : Type := mkRow {
  action : Txt;
  symbol : Txt;
  description : Txt;
  date : Dt;
  settlement : Dt;
  quantity : Num;
  price : Num;
  amount : Num;
  currency : Txt
}.
Arguments mkRow {Txt Num Dt}.
Arguments action {Txt Num Dt} r.
Arguments symbol {Txt Num Dt} r.
Arguments description {Txt Num Dt} r.
Arguments date {Txt Num Dt} r.
Arguments settlement {Txt Num Dt} r.
Arguments quantity {Txt Num Dt} r.
Arguments price {Txt Num Dt} r.
Arguments amount {Txt Num Dt} r.
Arguments currency {Txt Num Dt} r.

(** A row as read: text everywhere. *)
Definition RawRow : Type := Row string string string.
(** A row as Python sees it: any value in any field. *)
Definition PyRow : Type := Row pyval pyval pyval.
(** A row as [fixup_row] leaves it. *)
Definition CanonicalRow : Type := Row string Decimal Date.

Definition of_raw (r : RawRow) : PyRow :=
  mkRow (PStr (action r)) (PStr (symbol r)) (PStr (description r))
        (PStr (date r)) (PStr (settlement r))
        (PStr (quantity r)) (PStr (price r)) (PStr (amount r))
        (PStr (currency r)).

Definition to_canonical (r : PyRow) : option CanonicalRow :=
  match action r, symbol r, description r, date r, settlement r,
        quantity r, price r, amount r, currency r with
  | PStr a, PStr s, PStr d, PDate dt, PDate st,
    PDec q, PDec p, PDec am, PStr c => Some (mkRow a s d dt st q p am c)
  | _, _, _, _, _, _, _, _, _ => None
  end.

(** [row._replace(field=v)] *)
Definition replace_action (row : PyRow) (v : pyval) : PyRow :=
  mkRow v (symbol row) (description row) (date row) (settlement row)
        (quantity row) (price row) (amount row) (currency row).
Definition replace_dates (row : PyRow) (d s : pyval) : PyRow :=
  mkRow (action row) (symbol row) (description row) d s
        (quantity row) (price row) (amount row) (currency row).
Definition replace_amounts (row : PyRow) (q p a : pyval) : PyRow :=
  mkRow (action row) (symbol row) (description row) (date row)
        (settlement row) q p a (currency row).
Definition replace_quantity (row : PyRow) (q : pyval) : PyRow :=
  replace_amounts row q (price row) (amount row).
Definition replace_amount (row : PyRow) (a : pyval) : PyRow :=
  replace_amounts row (quantity row) (price row) a.

(** ** Python operators on dynamically typed values *)

(** [bool(v)] *)
Definition truthy (v : pyval) : bool :=
  match v with
  | PStr s => nonempty s
  | PDec d => Decimal_bool d
  | PDate _ => true
  end.

(** [v == s] for a string literal [s]: a [Decimal] or a date is never
    equal to a string. *)
Definition py_eq_str (v : pyval) (s : string) : bool :=
  match v with
  | PStr t => String.eqb t s
  | PDec _ => false
  | PDate _ => false
  end.

(** [v / n] for an integer literal [n]; only a [Decimal] divides. *)
Definition py_div_int (v : pyval) (n : N) : result Decimal :=
  match v with
  | PDec d => dec_div d (Decimal_of_N n)
  | _ => Raise TypeError
  end.

(** The [re] functions and [strptime] want a string. *)
Definition py_text (v : pyval) : result string :=
  match v with
  | PStr s => Ok s
  | _ => Raise TypeError
  end.

(** ** The source: [decimal] and [fixup_row] *)

(** [decimal(strord)] *)
Definition decimal (strord : pyval) : result Decimal :=
  match strord with
  | PDec d => Ok d
  | PStr s =>
      if negb (nonempty s) then Ok Decimal_zero
      else Decimal_of_string (remove_char "," s)
  | PDate _ => Raise (AssertionError None)
  end.

(** [fixup_row(row)], lines 192-208: the dates, the numbers, the
    rescaling and the back-fill of the amount. *)
Definition fixup_fields (row : PyRow) : result PyRow :=
  (* Parse the dates. *)
  d <- (s <- py_text (date row) ;; strptime s) ;;
  st <- (s <- py_text (settlement row) ;; strptime s) ;;
  let row := replace_dates row (PDate d) (PDate st) in
  (* Convert all amounts to decimal. *)
  q <- decimal (quantity row) ;;
  p <- decimal (price row) ;;
  a <- decimal (amount row) ;;
  let row := replace_amounts row (PDec q) (PDec p) (PDec a) in
  (* If this is a transaction in 1000'ths amount, divide the quantity. *)
  desc <- py_text (description row) ;;
  row <- (if re_match_1000THS desc
          then q' <- py_div_int (quantity row) 1000 ;;
               Ok (replace_quantity row (PDec q'))
          else Ok row) ;;
  (* Compute the amount, if not computed for us. *)
  if py_eq_str (amount row) "0"
  then q' <- decimal (quantity row) ;;
       p' <- decimal (price row) ;;
       a' <- dec_mul q' p' ;;
       Ok (replace_amount row (PDec a'))
  else Ok row.

(** [fixup_row(row)], lines 210-218: the action of the row. *)
Definition fixup_action (row : PyRow) : result PyRow :=
  (* Figure how what the "action" of this row is. *)
  let action0 := action row in
  ar <- (if negb (truthy action0)
         then desc <- py_text (description row) ;;
              let action1 :=
                if re_search_DIST desc then PStr "DIST" else action0 in
              Ok (action1, replace_action row action1)
         else Ok (action0, row)) ;;
  let '(action2, row) := ar in
  assert (truthy action2) (Some (description row)) ;;;
  Ok row.

(** [fixup_row(row)] *)
Definition fixup_row (row : PyRow) : result PyRow :=
  row <- fixup_fields row ;;
  fixup_action row.

(** The spec's [normalize]: [fixup_row] on a row as read, seen with its
    types. *)
Definition normalize (raw : RawRow) : result CanonicalRow :=
  row <- fixup_row (of_raw raw) ;;
  match to_canonical row with
  | Some c => Ok c
  | None => Raise TypeError
  end.

(** Modelled from the spec: [normalize_as_raw], which the idempotence
    property of the spec uses and the source does not define: a
    canonical row written back as text, dates and numbers through
    [str]. *)
Definition normalize_as_raw (c : CanonicalRow) : RawRow :=
  mkRow (action c) (symbol c) (description c)
        (Date_str (date c)) (Date_str (settlement c))
        (Decimal_str (quantity c)) (Decimal_str (price c))
        (Decimal_str (amount c)) (currency c).

(** ** Ledger data *)

(** Modelled from the spec: the ledger types of [beancount2.core.data]
    (not under src/), as section 3 of the spec describes them: an
    account is known by its name; a posting is an account, a signed
    number, a currency or commodity and an optional cost (unit cost and
    cost currency); a transaction is a source location (file and row
    index), a date, a narration and its postings in order.  The import
    flag and the absent payee, tags and links are the same for every
    transaction and are left out. *)
Record Account : Type := mkAccount { name : string }.

Record Cost : Type := mkCost {
  cost_number : Decimal;
  cost_currency : string
}.

Record Posting : Type := mkPosting {
  posting_account : Account;
  posting_number : Decimal;
  posting_currency : string;
  posting_cost : option Cost
}.

Record FileLocation : Type := mkFileLocation {
  filename : string;
  lineno : nat
}.

Record Transaction : Type := mkTransaction {
  fileloc : FileLocation;
  entry_date : Date;
  narration : string;
  postings : list Posting
}.

(** The account mapping [config], with the keys of [CONFIG_ACCOUNTS]
    for the spreadsheet file type. *)
Record Config : Type := mkConfig {
  FILE : Account;
  cash : Account;
  positions : Account;
  fees : Account;
  commission : Account;
  interest : Account;
  dividend : Account;
  transfer : Account
}.

(** Modelled from the spec: [account_from_name], [create_simple_posting]
    and [create_simple_posting_with_cost] of [beancount2.core.data] (not
    under src/): the first makes the account of a name, the others
    append to the entry a posting of [number] units of [currency] on
    [account], the second one with a cost of [cost_number]
    [cost_currency] per unit. *)
Definition account_from_name (n : string) : Account := mkAccount n.

Definition append_posting (entry : Transaction) (p : Posting) : Transaction :=
  mkTransaction (fileloc entry) (entry_date entry) (narration entry)
                (postings entry ++ [p]).

Definition create_simple_posting (entry : Transaction) (account : Account)
    (number : Decimal) (cur : string) : Transaction :=
  append_posting entry (mkPosting account number cur None).

Definition create_simple_posting_with_cost (entry : Transaction)
    (account : Account) (number : Decimal) (cur : string)
    (cost_num : Decimal) (cost_cur : string) : Transaction :=
  append_posting entry
    (mkPosting account number cur (Some (mkCost cost_num cost_cur))).

(** ** The source: the row loop of [import_excel_file] *)

(** [filter(None, parts)]: the parts that are neither [None] nor empty. *)
Fixpoint filter_none (parts : list (option string)) : list string :=
  match parts with
  | [] => []
  | Some s :: rest =>
      if nonempty s then s :: filter_none rest else filter_none rest
  | None :: rest => filter_none rest
  end.

(** Reading a local variable that may not be bound yet. *)
Definition local {A} (var : string) (v : option A) : result A :=
  match v with
  | Some a => Ok a
  | None => Raise (UnboundLocalError var)
  end.

(** [bool(x)] for [x] a [Decimal] or [None]. *)
Definition truthy_opt (x : option Decimal) : bool :=
  match x with
  | Some d => Decimal_bool d
  | None => false
  end.

(** The use of [x], a [Decimal] or [None], as a number. *)
Definition as_number (x : option Decimal) : result Decimal :=
  match x with
  | Some d => Ok d
  | None => Raise TypeError
  end.

(** [decimal(mo.group(1)) if mo else None] *)
Definition group_decimal (mo : option string) : result (option Decimal) :=
  match mo with
  | Some g => d <- decimal (PStr g) ;; Ok (Some d)
  | None => Ok None
  end.

(** The auxiliary amount of the description. *)
Definition description_amount_of (desc : string) : result (option Decimal) :=
  group_decimal (re_search_amount desc).

(** The auxiliary share count of the description. *)
Definition description_shares_of (desc : string) : result (option Decimal) :=
  group_decimal (re_search_shares desc).

(** The narration of a row and its settlement fragment. *)
Definition settlement_of (row : CanonicalRow) : option string :=
  if Date_eqb (settlement row) (date row) then None
  else Some ("Settlement: " ++ Date_str (settlement row)).

Definition narration_of (row : CanonicalRow) : string :=
  join " -- "
       (filter_none [Some (action row); Some (symbol row);
                     Some (description row); settlement_of row]).

(** The arms of the [if]/[elif] chain on [row.action], in order. *)
Inductive arm : Type :=
| ADJ_RR | RTC_RR | EXH_AB | DIV_F6 | Buy_Sell | SEL_PUR_FF | DIST.

(** The condition of each arm, as written in the source. *)
Definition arm_condition (a : arm) (act : string) : bool :=
  match a with
  | ADJ_RR => String.eqb act "ADJ RR"
  | RTC_RR => String.eqb act "RTC RR"
  | EXH_AB => String.eqb act "EXH AB"
  | DIV_F6 => String.eqb act "DIV F6"
  | Buy_Sell => existsb (String.eqb act) ["Buy"; "Sell"]
  | SEL_PUR_FF => existsb (String.eqb act) ["SEL FF"; "PUR FF"]
  | DIST => String.eqb act "DIST"
  end.

Definition arms : list arm :=
  [ADJ_RR; RTC_RR; EXH_AB; DIV_F6; Buy_Sell; SEL_PUR_FF; DIST].

(** The chain takes the first arm whose condition holds. *)
Definition classify (act : string) : option arm :=
  find (fun a => arm_condition a act) arms.

(** The [if]/[elif] chain of the loop body ("Add relevant postings"):
    the entry with the postings of the row's arm, and the list
    [extra_narration] as the arm leaves it. *)
Definition add_postings (config : Config) (account_position : option Account)
    (row : CanonicalRow) (description_amount : option Decimal)
    (entry : Transaction) : result (Transaction * list string) :=
  let extra_narration : list string := [] in
  match classify (action row) with
  | Some ADJ_RR | Some RTC_RR | Some EXH_AB =>
      Ok (entry, extra_narration)
  | Some DIV_F6 =>
      assert (truthy_opt description_amount) None ;;;
      acct <- local "account_position" account_position ;;
      da <- as_number description_amount ;;
      let entry := create_simple_posting_with_cost entry acct
                     (quantity row) (symbol row) da (currency row) in
      total <- dec_mul (quantity row) da ;;
      neg <- dec_neg total ;;
      Ok (create_simple_posting entry (dividend config) neg (currency row),
          extra_narration)
  | Some Buy_Sell =>
      acct <- local "account_position" account_position ;;
      let entry := create_simple_posting_with_cost entry acct
                     (quantity row) (symbol row)
                     (price row) (currency row) in
      Ok (create_simple_posting entry (cash config) (amount row)
                                (currency row),
          extra_narration)
  | Some SEL_PUR_FF =>
      assert (negb (truthy_opt description_amount)) None ;;;
      acct <- local "account_position" account_position ;;
      Ok (create_simple_posting entry acct (quantity row) (symbol row),
          extra_narration)
  | Some DIST =>
      assert (negb (truthy_opt description_amount)) None ;;;
      neg <- dec_neg (amount row) ;;
      let entry := create_simple_posting entry (dividend config) neg
                     (currency row) in
      let entry := create_simple_posting entry (cash config)
                     (amount row) (currency row) in
      (* Insert the otherwise unused price per-share in the
         description. *)
      Ok (entry,
          List.app extra_narration
                   [Decimal_str (price row) ++ " per share"])
  | None =>
      Raise (ValueError ("Unknown action: '" ++ action row ++ "'"))
  end.

(** The account of the position after the row: the symbol's
    sub-account of [positions] when the row has a symbol, the variable
    as it was otherwise. *)
Definition position_account (config : Config)
    (account_position : option Account) (row : CanonicalRow)
  : option Account :=
  if nonempty (symbol row)
  then Some (account_from_name
               (name (positions config) ++ ":" ++ symbol row))
  else account_position.

(** The body of the loop of [import_excel_file] for one row after
    [fixup_row]: [account_position] is the local variable of that name
    as the previous rows left it ([None] while unbound).  Returns the
    entry appended to [new_entries] and the variable's new state; the
    list [extra_narration] is not used after the chain. *)
Definition import_row (file : string) (config : Config)
    (account_position : option Account) (index : nat) (row : CanonicalRow)
  : result (Transaction * option Account) :=
  (* Gather transaction basics. *)
  let loc := mkFileLocation file index in
  (* Gather the amount and the number of shares from the description. *)
  description_amount <- description_amount_of (description row) ;;
  description_shares <- description_shares_of (description row) ;;
  (* Create a new transaction. *)
  let entry := mkTransaction loc (date row) (narration_of row) [] in
  (* Figure out an account for the position. *)
  let account_position := position_account config account_position row in
  (* Add relevant postings. *)
  r <- add_postings config account_position row description_amount entry ;;
  (* new_entries.append(entry) *)
  Ok (fst r, account_position).

(** The loop: [rdr] is what the CSV reader yields for the converted
    file, [index] the position in it. *)
Fixpoint import_rows (file : string) (config : Config)
    (account_position : option Account) (index : nat) (rdr : list RawRow)
    (new_entries : list Transaction) : result (list Transaction) :=
  match rdr with
  | [] => Ok new_entries
  | raw :: rest =>
      row <- normalize raw ;;
      r <- import_row file config account_position index row ;;
      import_rows file config (snd r) (S index) rest (new_entries ++ [fst r])
  end.

(** [import_excel_file(filename, config, entries)], given the rows of
    the converted file. *)
Definition import_excel_file (file : string) (config : Config)
    (rdr : list RawRow) : result (list Transaction) :=
  import_rows file config None 0 rdr [].

(** ** Vocabulary of the properties *)

Definition starts_with (p s : string) : Prop := exists post, s = p ++ post.
Definition ends_with (p s : string) : Prop := exists pre, s = pre ++ p.
Definition contains (p s : string) : Prop :=
  exists pre post, s = pre ++ p ++ post.

(** Does the text end with a word character? *)
Fixpoint ends_word (s : string) : bool :=
  match s with
  | EmptyString => false
  | String c EmptyString => is_word c
  | String _ r => ends_word r
  end.

(** The standalone token [DIST]: an occurrence with no word character
    (a letter, a digit or the underscore, of ASCII or not: [is_word])
    next to it on either side. *)
Definition standalone_DIST (s : string) : Prop :=
  exists pre post,
    s = pre ++ "DIST" ++ post
    /\ ends_word pre = false /\ starts_word post = false.

(** An occurrence in [s] of a dollar sign, one or more digits and
    commas, a point and [frac], a run of one or more digits; [g] is the
    text after the dollar sign. *)
Definition dollar_amount_at (s pre run frac post : string) : Prop :=
  s = pre ++ "$" ++ run ++ "." ++ frac ++ post
  /\ run <> "" /\ forallb_string is_digit_or_comma run = true
  /\ frac <> "" /\ forallb_string is_digit frac = true.

Definition has_dollar_amount (s : string) : Prop :=
  exists pre run frac post, dollar_amount_at s pre run frac post.

(** A character that [Decimal(s)] and [decimal] leave in place: no
    white space, no underscore, no comma. *)
Definition plain (c : ascii) : bool :=
  negb (is_space c) && negb (Ascii.eqb c "_") && negb (Ascii.eqb c ",").

(** The text of a finite number: sign, digits, an optional point and
    fraction digits, an optional exponent. *)
Definition fraction_text (fp : option string) : string :=
  match fp with Some f => "." ++ f | None => "" end.

Definition exponent_text (ex : option Z) : string :=
  match ex with Some z => "E" ++ format_signed z | None => "" end.

Definition finite_text (sg : bool) (ip : string) (fp : option string)
    (ex : option Z) : string :=
  sign_str sg ++ ip ++ fraction_text fp ++ exponent_text ex.

Definition fraction_digits (fp : option string) : string :=
  match fp with Some f => f | None => "" end.

Definition exponent_value (ex : option Z) : Z :=
  match ex with Some z => z | None => 0%Z end.

(** [pad 4 y] is four digits that read back as [y]. *)
Definition year_text_ok (y : nat) : bool :=
  match pad 4 y with
  | String a (String b (String c (String d EmptyString))) =>
      is_digit a && is_digit b && is_digit c && is_digit d
      && (1000 * digit_val a + 100 * digit_val b
          + 10 * digit_val c + digit_val d =? y)%nat
  | _ => false
  end.

(** [pad 2 d] is read back by the day directive as [d]. *)
Definition day_text_ok (d : nat) : bool :=
  match re_day (pad 2 d) with
  | Some (d', EmptyString) => (d' =? d)%nat
  | _ => false
  end.

(** The action codes of the classification table. *)
Definition recognized_actions : list string :=
  ["ADJ RR"; "RTC RR"; "EXH AB"; "DIV F6"; "Buy"; "Sell";
   "SEL FF"; "PUR FF"; "DIST"].

(** The actions whose arm posts on the position account. *)
Definition position_actions : list string :=
  ["DIV F6"; "Buy"; "Sell"; "SEL FF"; "PUR FF"].

(** Sample data: an account mapping and the rows of the scenarios. *)
Definition sample_config : Config :=
  mkConfig (mkAccount "Assets:RBC:Filing") (mkAccount "Assets:RBC:Cash")
           (mkAccount "Assets:RBC:Positions") (mkAccount "Expenses:Fees")
           (mkAccount "Expenses:Commissions") (mkAccount "Income:Interest")
           (mkAccount "Income:Dividends") (mkAccount "Assets:Transfer").

Definition buy_raw : RawRow :=
  mkRow "Buy" "XYZ" "" "2013-06-01" "2013-06-04" "10" "5.00" "50.00" "USD".

Definition buy_zero_amount_raw : RawRow :=
  mkRow "Buy" "XYZ" "" "2013-06-01" "2013-06-04" "10" "5.00" "0" "USD".

Definition dist_raw : RawRow :=
  mkRow "DIST" "" "" "2013-06-01" "2013-06-01" "" "2.50" "25.00" "USD".

Definition marker_inside_raw : RawRow :=
  mkRow "Buy" "XYZ" "UNITS IN 1000THS" "2013-06-01" "2013-06-04"
        "5000" "5.00" "25.00" "USD".

Definition marker_first_raw : RawRow :=
  mkRow "Buy" "XYZ" "1000THS OF A UNIT" "2013-06-01" "2013-06-04"
        "5000" "5.00" "25.00" "USD".

Definition inferred_dist_raw : RawRow :=
  mkRow "" "XYZ" "CASH DIST ON 10 SHS" "2013-06-01" "2013-06-01"
        "" "2.50" "25.00" "USD".

Definition no_action_raw : RawRow :=
  mkRow "" "XYZ" "REDISTRIBUTION" "2013-06-01" "2013-06-01"
        "" "2.50" "25.00" "USD".

(** The letter e with an acute accent (U+00E9), a word character. *)
Definition e_acute : ascii := ascii_of_nat 233.

(** A description where an accented letter touches [DIST]. *)
Definition accented_dist_raw : RawRow :=
  mkRow "" "XYZ" (String e_acute "DIST") "2013-06-01" "2013-06-01"
        "" "2.50" "25.00" "USD".

Definition div_zero_raw : RawRow :=
  mkRow "DIV F6" "XYZ" "REINV@$0.00" "2013-06-01" "2013-06-01"
        "3" "" "" "USD".

Definition sell_no_symbol_raw : RawRow :=
  mkRow "Sell" "" "" "2013-06-02" "2013-06-05" "-4" "6.00" "24.00" "USD".

Definition foo_raw : RawRow :=
  mkRow "FOO" "XYZ" "" "2013-06-01" "2013-06-01" "1" "1" "1" "USD".

(** ** The source: [is_matching_file] *)

(** [k] times [\d] at the start of [s]: what follows them. *)
Fixpoint match_digits (k : nat) (s : string) : option string :=
  match k with
  | O => Some s
  | S k' =>
      match s with
      | String c r => if is_digit c then match_digits k' r else None
      | EmptyString => None
      end
  end.

(** A match of [Activity\d\d\d\d\d\d\d\d - \d\d\d\d\d\d\d\d] at the
    start of [s]; every piece has a fixed length. *)
Definition match_activity (s : string) : bool :=
  match strip_prefix "Activity" s with
  | Some r1 =>
      match match_digits 8 r1 with
      | Some r2 =>
          match strip_prefix " - " r2 with
          | Some r3 =>
              match match_digits 8 r3 with
              | Some _ => true
              | None => false
              end
          | None => false
          end
      | None => false
      end
  | None => false
  end.

(** [re.search] of that pattern: a match at some position. *)
Fixpoint re_search_activity (s : string) : bool :=
  match_activity s
  || match s with
     | String _ r => re_search_activity r
     | EmptyString => false
     end.

(** [is_matching_file(contents, filetype)], as the truth value of what
    it returns ([False], [None] or a match object). *)
Definition is_matching_file (contents filetype : string) : bool :=
  String.eqb filetype "application/vnd.ms-excel"
  && re_search_activity contents.

(** An occurrence of the marker of an activity statement: the word
    [Activity], eight digits, [" - "], eight digits. *)
Definition activity_marker_at (s pre d1 d2 post : string) : Prop :=
  s = pre ++ "Activity" ++ d1 ++ " - " ++ d2 ++ post
  /\ String.length d1 = 8%nat /\ forallb_string is_digit d1 = true
  /\ String.length d2 = 8%nat /\ forallb_string is_digit d2 = true.

(** ** More vocabulary *)

(** The symbol of the last row with one, [seen] before the rows. *)
Fixpoint last_symbol (seen : option string) (rows : list RawRow)
  : option string :=
  match rows with
  | [] => seen
  | r :: rest =>
      last_symbol (if nonempty (symbol r) then Some (symbol r) else seen) rest
  end.

(** The account of the position of a symbol. *)
Definition symbol_account (config : Config) (sym : string) : Account :=
  account_from_name (name (positions config) ++ ":" ++ sym).

(** A non-zero coefficient and an exponent that the context holds
    without rounding: at most [prec] digits, within the exponent
    range. *)
Definition representable (c : N) (e : Z) : Prop :=
  (0 < c)%N /\ (ndigits c <= prec)%Z /\ (Etiny <= e)%Z
  /\ (ndigits c + e - prec <= Etop)%Z.

(** The errors that [fixup_row] can raise on a row as read. *)
Definition fixup_row_error (raw : RawRow) (e : exn) : Prop :=
  e = ValueError_strptime (date raw)
  \/ e = ValueError_strptime (settlement raw)
  \/ e = InvalidOperation
  \/ e = Overflow
  \/ e = AssertionError (Some (PStr (description raw))).

(** * Properties *)

(** ** Characters and text *)

Ltac ascii_cases c := destruct c as [[] [] [] [] [] [] [] []].

(** Run the steps of the row functions up to the next library call. *)
Ltac row_steps :=
  cbv beta iota zeta delta
    [bind py_text action symbol description date settlement quantity price
     amount currency replace_dates replace_amounts replace_quantity
     replace_amount replace_action py_div_int py_eq_str truthy assert
     to_canonical negb].

Lemma is_digit_plain c : is_digit c = true -> plain c = true.
Proof. ascii_cases c; intros H; try discriminate H; reflexivity. Qed.

Lemma is_digit_lower c : is_digit c = true -> lower c = c.
Proof. ascii_cases c; intros H; try discriminate H; reflexivity. Qed.

Lemma is_digit_not_sign c :
  is_digit c = true ->
  Ascii.eqb c "-" = false /\ Ascii.eqb c "+" = false
  /\ Ascii.eqb c "." = false /\ Ascii.eqb c "," = false.
Proof. ascii_cases c; intros H; try discriminate H; repeat split. Qed.

Lemma app_nil_r (s : string) : s ++ "" = s.
Proof. induction s as [|c s IH]; simpl; [reflexivity | now rewrite IH]. Qed.

Lemma app_assoc (a b c : string) : (a ++ b) ++ c = a ++ b ++ c.
Proof. induction a as [|x a IH]; simpl; [reflexivity | now rewrite IH]. Qed.

Lemma length_app (a b : string) :
  String.length (a ++ b) = (String.length a + String.length b)%nat.
Proof. induction a as [|x a IH]; simpl; [reflexivity | now rewrite IH]. Qed.

Lemma forallb_string_app p a b :
  forallb_string p (a ++ b) = forallb_string p a && forallb_string p b.
Proof.
  induction a as [|x a IH]; simpl; [reflexivity|].
  rewrite IH. now rewrite andb_assoc.
Qed.

Lemma forallb_string_impl (p q : ascii -> bool) s :
  (forall c, p c = true -> q c = true) ->
  forallb_string p s = true -> forallb_string q s = true.
Proof.
  intros Hpq. induction s as [|c s IH]; simpl; [reflexivity|].
  intros H. apply andb_true_iff in H as [Hc Hs].
  rewrite (Hpq _ Hc), (IH Hs). reflexivity.
Qed.

Lemma span_app p a b :
  forallb_string p a = true -> starts p b = false -> span p (a ++ b) = (a, b).
Proof.
  induction a as [|c a IH]; simpl; intros Ha Hb.
  - destruct b as [|c b]; simpl in *; [reflexivity | now rewrite Hb].
  - apply andb_true_iff in Ha as [Hc Ha]. rewrite Hc, (IH Ha Hb). reflexivity.
Qed.

Lemma span_spec p s :
  s = fst (span p s) ++ snd (span p s)
  /\ forallb_string p (fst (span p s)) = true
  /\ starts p (snd (span p s)) = false.
Proof.
  induction s as [|c s (IH1 & IH2 & IH3)]; simpl.
  - repeat split.
  - destruct (p c) eqn:Hc.
    + destruct (span p s) as [a b]; simpl in *.
      rewrite Hc. repeat split; [now f_equal | assumption | assumption].
    + simpl. repeat split. assumption.
Qed.

Lemma lstrip_plain s : forallb_string plain s = true -> lstrip s = s.
Proof.
  destruct s as [|c s]; simpl; [reflexivity|].
  intros H. apply andb_true_iff in H as [Hc _].
  unfold plain in Hc. destruct (is_space c); [discriminate | reflexivity].
Qed.

Lemma rstrip_plain s : forallb_string plain s = true -> rstrip s = s.
Proof.
  induction s as [|c s IH]; simpl; [reflexivity|].
  intros H. apply andb_true_iff in H as [Hc Hs]. rewrite (IH Hs).
  destruct s; [|reflexivity].
  unfold plain in Hc. destruct (is_space c); [discriminate | reflexivity].
Qed.

Lemma strip_plain s : forallb_string plain s = true -> strip s = s.
Proof.
  intros H. unfold strip. rewrite (lstrip_plain _ H). now apply rstrip_plain.
Qed.

Lemma remove_underscore_plain s :
  forallb_string plain s = true -> remove_char "_" s = s.
Proof.
  induction s as [|c s IH]; simpl; [reflexivity|].
  intros H. apply andb_true_iff in H as [Hc Hs]. rewrite (IH Hs).
  unfold plain in Hc. destruct (Ascii.eqb c "_"); [|reflexivity].
  rewrite andb_false_r in Hc. discriminate.
Qed.

Lemma remove_comma_plain s :
  forallb_string plain s = true -> remove_char "," s = s.
Proof.
  induction s as [|c s IH]; simpl; [reflexivity|].
  intros H. apply andb_true_iff in H as [Hc Hs]. rewrite (IH Hs).
  unfold plain in Hc. destruct (Ascii.eqb c ","); [|reflexivity].
  rewrite andb_false_r in Hc. discriminate.
Qed.

Lemma remove_char_app c a b :
  remove_char c (a ++ b) = remove_char c a ++ remove_char c b.
Proof.
  induction a as [|x a IH]; simpl; [reflexivity|].
  rewrite IH. now destruct (Ascii.eqb x c).
Qed.

Lemma take_drop k s : take k s ++ drop k s = s.
Proof.
  revert s. induction k as [|k IH]; intros [|c s]; simpl; try reflexivity.
  now rewrite IH.
Qed.

Lemma length_take k s :
  (k <= String.length s)%nat -> String.length (take k s) = k.
Proof.
  revert s. induction k as [|k IH]; intros [|c s]; simpl; intros H;
    try reflexivity; try lia.
  rewrite IH; [reflexivity | lia].
Qed.

Lemma length_zeros k : String.length (zeros k) = k.
Proof. induction k; simpl; [reflexivity | now f_equal]. Qed.

Lemma forallb_digit_zeros k : forallb_string is_digit (zeros k) = true.
Proof. induction k; simpl; [reflexivity | assumption]. Qed.

Lemma forallb_string_split p k s :
  forallb_string p s = true ->
  forallb_string p (take k s) = true /\ forallb_string p (drop k s) = true.
Proof.
  intros H. rewrite <- (take_drop k s), forallb_string_app in H.
  now apply andb_true_iff in H.
Qed.

(** ** Integers and their digits *)

Lemma uint_of_digits_string_of_uint u :
  uint_of_digits (NilEmpty.string_of_uint u) = u.
Proof. induction u; simpl; try reflexivity; rewrite IHu; reflexivity. Qed.

Lemma int_of_digits_str n : int_of_digits (str_of_N n) = n.
Proof.
  unfold int_of_digits, str_of_N.
  rewrite uint_of_digits_string_of_uint. apply DecimalN.Unsigned.of_to.
Qed.

Lemma forallb_digit_string_of_uint u :
  forallb_string is_digit (NilEmpty.string_of_uint u) = true.
Proof. induction u; simpl; try reflexivity; assumption. Qed.

Lemma forallb_digit_str n : forallb_string is_digit (str_of_N n) = true.
Proof. apply forallb_digit_string_of_uint. Qed.

Lemma str_of_N_nonempty n : nonempty (str_of_N n) = true.
Proof.
  unfold str_of_N. destruct n as [|p]; [reflexivity|].
  pose proof (DecimalPos.Unsigned.to_uint_nonnil p) as H.
  simpl. destruct (Pos.to_uint p); try reflexivity. now elim H.
Qed.

Lemma length_str_pos n : (1 <= String.length (str_of_N n))%nat.
Proof.
  pose proof (str_of_N_nonempty n) as H.
  destruct (str_of_N n); [discriminate | simpl; lia].
Qed.

Lemma int_of_digits_zeros k s : int_of_digits (zeros k ++ s) = int_of_digits s.
Proof.
  induction k as [|k IH]; simpl; [reflexivity|].
  rewrite <- IH. reflexivity.
Qed.

Lemma nonempty_length s : nonempty s = true <-> (1 <= String.length s)%nat.
Proof. destruct s; simpl; split; intros H; try reflexivity; try lia; discriminate. Qed.

Lemma nonempty_app_l a b : nonempty a = true -> nonempty (a ++ b) = true.
Proof. destruct a; [discriminate | reflexivity]. Qed.

(** ** Reading back the text of a number *)

Lemma parse_sign_lookahead s :
  lookahead_digit s = true -> parse_sign s = (false, s).
Proof.
  destruct s as [|c s]; [discriminate|]. simpl. intros H.
  apply orb_true_iff in H as [H | H].
  - destruct (is_digit_not_sign c H) as (-> & -> & _). reflexivity.
  - apply andb_true_iff in H as [H _]. apply Ascii.eqb_eq in H. subst c.
    reflexivity.
Qed.

Lemma parse_exponent_format z : parse_exponent (format_signed z) = Some z.
Proof.
  unfold format_signed, parse_exponent.
  destruct (z <? 0)%Z eqn:Hz; simpl;
    rewrite str_of_N_nonempty, forallb_digit_str, int_of_digits_str; simpl;
    f_equal.
  - apply Z.ltb_lt in Hz. rewrite N2Z.inj_abs_N. lia.
  - apply Z.ltb_ge in Hz. rewrite N2Z.inj_abs_N. lia.
Qed.

Lemma starts_digit_exponent_text ex :
  starts is_digit (exponent_text ex) = false.
Proof. destruct ex; reflexivity. Qed.

Lemma starts_digit_fraction_text fp s :
  starts is_digit s = false -> starts is_digit (fraction_text fp ++ s) = false.
Proof. destruct fp; simpl; [reflexivity | trivial]. Qed.

Lemma parse_finite_text ip fp ex :
  forallb_string is_digit ip = true ->
  forallb_string is_digit (fraction_digits fp) = true ->
  lookahead_digit (ip ++ fraction_text fp ++ exponent_text ex) = true ->
  parse_finite (ip ++ fraction_text fp ++ exponent_text ex)
  = Some (int_of_digits (ip ++ fraction_digits fp),
          (exponent_value ex - Z.of_nat (String.length (fraction_digits fp)))%Z).
Proof.
  intros Hip Hfp Hlook. unfold parse_finite. rewrite Hlook.
  rewrite (span_app is_digit ip _ Hip)
    by (apply starts_digit_fraction_text, starts_digit_exponent_text).
  assert (Hfrac :
    match fraction_text fp ++ exponent_text ex with
    | String c r =>
        if Ascii.eqb c "." then span is_digit r
        else (EmptyString, fraction_text fp ++ exponent_text ex)
    | EmptyString => (EmptyString, fraction_text fp ++ exponent_text ex)
    end = (fraction_digits fp, exponent_text ex)).
  { destruct fp as [f|]; simpl.
    - apply span_app; [exact Hfp | apply starts_digit_exponent_text].
    - destruct ex; reflexivity. }
  rewrite Hfrac.
  destruct ex as [z|]; simpl.
  - rewrite parse_exponent_format. reflexivity.
  - reflexivity.
Qed.

Lemma plain_format_signed z : forallb_string plain (format_signed z) = true.
Proof.
  unfold format_signed.
  assert (H : forallb_string plain (str_of_N (Z.abs_N z)) = true).
  { apply (forallb_string_impl is_digit); [apply is_digit_plain|].
    apply forallb_digit_str. }
  destruct (z <? 0)%Z; simpl; exact H.
Qed.

Lemma plain_finite_text sg ip fp ex :
  forallb_string is_digit ip = true ->
  forallb_string is_digit (fraction_digits fp) = true ->
  forallb_string plain (finite_text sg ip fp ex) = true.
Proof.
  intros Hip Hfp. unfold finite_text.
  rewrite !forallb_string_app.
  rewrite (forallb_string_impl is_digit plain ip is_digit_plain Hip).
  assert (Hs : forallb_string plain (sign_str sg) = true)
    by (destruct sg; reflexivity).
  assert (Hf : forallb_string plain (fraction_text fp) = true).
  { destruct fp as [f|]; simpl; [|reflexivity].
    apply (forallb_string_impl is_digit); [apply is_digit_plain | exact Hfp]. }
  assert (He : forallb_string plain (exponent_text ex) = true).
  { destruct ex as [z|]; simpl; [apply plain_format_signed | reflexivity]. }
  rewrite Hs, Hf, He. reflexivity.
Qed.

(** The constructor reads the text of a finite number as that number. *)
Lemma Decimal_of_string_finite_text sg ip fp ex :
  forallb_string is_digit ip = true ->
  forallb_string is_digit (fraction_digits fp) = true ->
  lookahead_digit (ip ++ fraction_text fp ++ exponent_text ex) = true ->
  Decimal_of_string (finite_text sg ip fp ex)
  = Ok (Finite sg (int_of_digits (ip ++ fraction_digits fp))
               (exponent_value ex
                - Z.of_nat (String.length (fraction_digits fp)))).
Proof.
  intros Hip Hfp Hlook. unfold Decimal_of_string.
  pose proof (plain_finite_text sg ip fp ex Hip Hfp) as Hplain.
  rewrite (strip_plain _ Hplain), (remove_underscore_plain _ Hplain).
  unfold finite_text.
  assert (Hsign :
    parse_sign (sign_str sg ++ ip ++ fraction_text fp ++ exponent_text ex)
    = (sg, ip ++ fraction_text fp ++ exponent_text ex)).
  { destruct sg; simpl; [reflexivity | now apply parse_sign_lookahead]. }
  rewrite Hsign, (parse_finite_text ip fp ex Hip Hfp Hlook). reflexivity.
Qed.

(** [str] writes a finite number as a text of the number syntax whose
    digits and exponent give the number back. *)
Lemma Decimal_str_finite s c e :
  exists ip fp ex,
    Decimal_str (Finite s c e) = finite_text s ip fp ex
    /\ forallb_string is_digit ip = true /\ nonempty ip = true
    /\ forallb_string is_digit (fraction_digits fp) = true
    /\ int_of_digits (ip ++ fraction_digits fp) = c
    /\ (exponent_value ex
        - Z.of_nat (String.length (fraction_digits fp)))%Z = e.
Proof.
  unfold Decimal_str.
  pose proof (forallb_digit_str c) as Hd.
  pose proof (length_str_pos c) as Hl.
  pose proof (int_of_digits_str c) as Hi.
  pose proof (str_of_N_nonempty c) as Hne.
  set (int := str_of_N c) in *.
  set (len := Z.of_nat (String.length int)).
  set (leftdigits := (e + len)%Z).
  set (dotplace :=
         if (e <=? 0)%Z && (-6 <? leftdigits)%Z then leftdigits else 1%Z).
  assert (Hdot : dotplace = leftdigits /\ (e <= 0)%Z \/ dotplace = 1%Z).
  { unfold dotplace. destruct (e <=? 0)%Z eqn:He; simpl; [|now right].
    destruct (-6 <? leftdigits)%Z; [left | now right].
    split; [reflexivity | now apply Z.leb_le]. }
  set (ex := if (leftdigits =? dotplace)%Z then None
             else Some (leftdigits - dotplace)%Z).
  assert (Hex : (if (leftdigits =? dotplace)%Z then ""
                 else "E" ++ format_signed (leftdigits - dotplace))
                = exponent_text ex).
  { unfold ex. destruct (leftdigits =? dotplace)%Z; reflexivity. }
  assert (Hexv : exponent_value ex = (leftdigits - dotplace)%Z).
  { unfold ex. destruct (leftdigits =? dotplace)%Z eqn:E; simpl;
      [apply Z.eqb_eq in E; lia | reflexivity]. }
  rewrite Hex.
  destruct (dotplace <=? 0)%Z eqn:H1.
  - apply Z.leb_le in H1.
    exists "0", (Some (zeros (Z.to_nat (- dotplace)) ++ int)), ex.
    split; [reflexivity|]. split; [reflexivity|]. split; [reflexivity|].
    simpl fraction_digits. split; [|split].
    + rewrite forallb_string_app, forallb_digit_zeros. exact Hd.
    + change ("0" ++ zeros (Z.to_nat (- dotplace)) ++ int)
        with (zeros (S (Z.to_nat (- dotplace))) ++ int).
      rewrite int_of_digits_zeros. exact Hi.
    + rewrite Hexv, length_app, length_zeros. fold len in Hl |- *.
      destruct Hdot as [[Hdp He] | Hdp]; unfold leftdigits in *; lia.
  - apply Z.leb_gt in H1.
    destruct (len <=? dotplace)%Z eqn:H2.
    + apply Z.leb_le in H2.
      assert (Hz : Z.to_nat (dotplace - len) = 0%nat).
      { destruct Hdot as [[Hdp He] | Hdp]; unfold leftdigits, len in *; lia. }
      exists int, None, ex.
      rewrite Hz. simpl zeros. rewrite app_nil_r.
      split; [reflexivity|]. split; [exact Hd|]. split; [exact Hne|].
      split; [reflexivity|]. simpl fraction_digits. rewrite app_nil_r.
      split; [exact Hi|].
      rewrite Hexv. simpl.
      destruct Hdot as [[Hdp He] | Hdp]; unfold leftdigits, len in *; lia.
    + apply Z.leb_gt in H2.
      exists (take (Z.to_nat dotplace) int),
             (Some (drop (Z.to_nat dotplace) int)), ex.
      destruct (forallb_string_split is_digit (Z.to_nat dotplace) int Hd)
        as [Ht Hdr].
      assert (Hlt : String.length (take (Z.to_nat dotplace) int)
                    = Z.to_nat dotplace)
        by (apply length_take; unfold len in H2; lia).
      split; [reflexivity|]. split; [exact Ht|]. split.
      { apply nonempty_length. rewrite Hlt. lia. }
      simpl fraction_digits. split; [exact Hdr|]. split.
      { rewrite take_drop. exact Hi. }
      assert (Hld : (String.length (drop (Z.to_nat dotplace) int)
                     = String.length int - Z.to_nat dotplace)%nat).
      { pose proof (f_equal String.length (take_drop (Z.to_nat dotplace) int))
          as E. rewrite length_app, Hlt in E. lia. }
      rewrite Hexv, Hld.
      destruct Hdot as [[Hdp He] | Hdp]; unfold leftdigits, len in *; lia.
Qed.

Lemma lookahead_digit_app ip rest :
  nonempty ip = true -> forallb_string is_digit ip = true ->
  lookahead_digit (ip ++ rest) = true.
Proof.
  destruct ip as [|c ip]; [discriminate|]. simpl. intros _ H.
  apply andb_true_iff in H as [-> _]. reflexivity.
Qed.

Lemma lower_string_digits s :
  forallb_string is_digit s = true -> lower_string s = s.
Proof.
  induction s as [|c s IH]; simpl; [reflexivity|].
  intros H. apply andb_true_iff in H as [Hc Hs].
  now rewrite (is_digit_lower c Hc), (IH Hs).
Qed.

(** The payload of a NaN as [str] writes it. *)
Lemma parse_diag_payload p :
  parse_diag (if (p =? 0)%N then "" else str_of_N p) = Some p.
Proof.
  unfold parse_diag. destruct (p =? 0)%N eqn:E.
  - apply N.eqb_eq in E. subst p. reflexivity.
  - now rewrite forallb_digit_str, int_of_digits_str.
Qed.

Lemma plain_payload p :
  forallb_string plain (if (p =? 0)%N then "" else str_of_N p) = true.
Proof.
  destruct (p =? 0)%N; [reflexivity|].
  apply (forallb_string_impl is_digit); [apply is_digit_plain|].
  apply forallb_digit_str.
Qed.

Lemma lower_payload p :
  lower_string (if (p =? 0)%N then "" else str_of_N p)
  = (if (p =? 0)%N then "" else str_of_N p).
Proof.
  destruct (p =? 0)%N; [reflexivity|].
  apply lower_string_digits, forallb_digit_str.
Qed.

(** Round trip: [Decimal(str(d))] is [d], for every value. *)
Lemma Decimal_of_string_str d : Decimal_of_string (Decimal_str d) = Ok d.
Proof.
  destruct d as [s c e | s | s sig p].
  - destruct (Decimal_str_finite s c e)
      as (ip & fp & ex & -> & Hip & Hne & Hfp & Hc & He).
    rewrite Decimal_of_string_finite_text; trivial.
    + now rewrite Hc, He.
    + now apply lookahead_digit_app.
  - destruct s; reflexivity.
  - unfold Decimal_of_string.
    pose proof (plain_payload p) as Hp.
    assert (Hplain : forallb_string plain (Decimal_str (NaN s sig p)) = true).
    { simpl. rewrite !forallb_string_app, Hp.
      destruct s, sig; reflexivity. }
    rewrite (strip_plain _ Hplain), (remove_underscore_plain _ Hplain).
    pose proof (parse_diag_payload p) as Hd.
    pose proof (lower_payload p) as Hl.
    destruct s, sig; simpl; unfold parse_special; simpl;
      rewrite Hl, Hd; reflexivity.
Qed.

Lemma plain_Decimal_str d : forallb_string plain (Decimal_str d) = true.
Proof.
  destruct d as [s c e | s | s sig p].
  - destruct (Decimal_str_finite s c e)
      as (ip & fp & ex & -> & Hip & _ & Hfp & _).
    now apply plain_finite_text.
  - destruct s; reflexivity.
  - simpl. rewrite !forallb_string_app, plain_payload.
    destruct s, sig; reflexivity.
Qed.

Lemma nonempty_Decimal_str d : nonempty (Decimal_str d) = true.
Proof.
  destruct d as [s c e | s | s sig p].
  - destruct (Decimal_str_finite s c e)
      as (ip & fp & ex & -> & _ & Hne & _).
    unfold finite_text. destruct s; [reflexivity|]. simpl.
    now apply nonempty_app_l.
  - destruct s; reflexivity.
  - destruct s, sig; reflexivity.
Qed.

(** [decimal] reads back what [str] wrote. *)
Lemma decimal_str d : decimal (PStr (Decimal_str d)) = Ok d.
Proof.
  unfold decimal. rewrite nonempty_Decimal_str. simpl.
  rewrite (remove_comma_plain _ (plain_Decimal_str d)).
  apply Decimal_of_string_str.
Qed.

(** ** Reading back the text of a date *)

Lemma strptime_valid s d : strptime s = Ok d -> valid_date d = true.
Proof.
  unfold strptime.
  repeat match goal with
         | |- context [match ?x with _ => _ end] =>
             destruct x eqn:?; try discriminate
         end.
  intros H. injection H as <-. assumption.
Qed.

Lemma year_text y : (y < 100 * 100)%nat -> year_text_ok y = true.
Proof.
  intros H.
  assert (Hall : forallb year_text_ok (seq 0 (100 * 100)) = true)
    by (vm_compute; reflexivity).
  rewrite forallb_forall in Hall. apply Hall, in_seq. lia.
Qed.

Lemma day_text d : (1 <= d <= 31)%nat -> day_text_ok d = true.
Proof.
  intros H.
  assert (Hall : forallb day_text_ok (seq 1 31) = true)
    by (vm_compute; reflexivity).
  rewrite forallb_forall in Hall. apply Hall, in_seq. lia.
Qed.

Lemma month_text m rest :
  (1 <= m <= 12)%nat ->
  re_month (pad 2 m ++ String "-" rest) = Some (m, String "-" rest).
Proof.
  intros H.
  do 13 (destruct m as [|m]; [try lia; reflexivity|]). lia.
Qed.

Lemma days_in_month_le y m : (days_in_month y m <= 31)%nat.
Proof.
  unfold days_in_month.
  do 13 (destruct m as [|m]; [try destruct (is_leap y); lia|]). lia.
Qed.

Lemma strptime_fields y1 y2 y3 y4 mt dt m dd :
  is_digit y1 = true -> is_digit y2 = true ->
  is_digit y3 = true -> is_digit y4 = true ->
  re_month (mt ++ String "-" dt) = Some (m, String "-" dt) ->
  re_day dt = Some (dd, "") ->
  valid_date (mkDate (1000 * digit_val y1 + 100 * digit_val y2
                      + 10 * digit_val y3 + digit_val y4) m dd) = true ->
  strptime (String y1 (String y2 (String y3 (String y4
              (String "-" (mt ++ String "-" dt))))))
  = Ok (mkDate (1000 * digit_val y1 + 100 * digit_val y2
                + 10 * digit_val y3 + digit_val y4) m dd).
Proof.
  intros H1 H2 H3 H4 Hm Hd Hv. unfold strptime.
  rewrite H1, H2, H3, H4, Hm.
  change (Ascii.eqb "-" "-") with true. cbv beta iota delta [andb].
  rewrite Hd. cbv beta iota zeta. rewrite Hv. reflexivity.
Qed.

(** Round trip: [strptime(str(d))] is [d], for every date that exists. *)
Lemma strptime_Date_str d : valid_date d = true -> strptime (Date_str d) = Ok d.
Proof.
  intros Hv. pose proof Hv as Hv'.
  unfold valid_date in Hv'.
  apply andb_true_iff in Hv' as [Hv' Hd2].
  apply andb_true_iff in Hv' as [Hv' Hd1].
  apply andb_true_iff in Hv' as [Hv' Hm2].
  apply andb_true_iff in Hv' as [Hv' Hm1].
  apply andb_true_iff in Hv' as [Hy1 Hy2].
  apply Nat.leb_le in Hd2, Hd1, Hm2, Hm1, Hy1. apply Nat.ltb_lt in Hy2.
  destruct d as [y m dd]. cbn [year month day] in *.
  pose proof (days_in_month_le y m) as Hdim.
  pose proof (year_text y ltac:(lia)) as Hy.
  pose proof (day_text dd ltac:(lia)) as Hd.
  pose proof (month_text m (pad 2 dd) ltac:(lia)) as Hm.
  unfold Date_str. cbn [year month day].
  unfold year_text_ok in Hy.
  destruct (pad 4 y) as [|a [|b [|c [|e [|? ?]]]]]; try discriminate Hy.
  apply andb_true_iff in Hy as [Hy Hval].
  apply andb_true_iff in Hy as [Hy He].
  apply andb_true_iff in Hy as [Hy Hc].
  apply andb_true_iff in Hy as [Ha Hb].
  apply Nat.eqb_eq in Hval.
  unfold day_text_ok in Hd.
  destruct (re_day (pad 2 dd)) as [[d' [|? ?]]|] eqn:Hrd; try discriminate Hd.
  apply Nat.eqb_eq in Hd. subst d'.
  rewrite <- Hval in Hv |- *.
  cbn [append].
  now apply strptime_fields.
Qed.

(** ** The errors of the library calls *)

Lemma fix_finite_error s c e x : fix_finite s c e = Raise x -> x = Overflow.
Proof.
  unfold fix_finite.
  repeat match goal with
         | |- context [if ?b then _ else _] => destruct b
         | |- context [let '(_, _) := ?p in _] => destruct p
         end; intros [=]; congruence.
Qed.

Lemma dec_neg_error d x :
  dec_neg d = Raise x -> x = Overflow \/ x = InvalidOperation.
Proof.
  destruct d as [s c e | s | s [] p]; simpl; try discriminate.
  - destruct (c =? 0)%N; intros H; left; exact (fix_finite_error _ _ _ _ H).
  - intros [= <-]. now right.
Qed.

Lemma dec_mul_error a b x :
  dec_mul a b = Raise x -> x = Overflow \/ x = InvalidOperation.
Proof.
  unfold dec_mul.
  destruct a as [sa ca ea | sa | sa [] pa], b as [sb cb eb | sb | sb [] pb];
    cbn [check_nans is_zero Decimal_bool sign_of];
    repeat match goal with
           | |- context [if ?b then _ else _] => destruct b
           end;
    intros H;
    first [ discriminate H
          | injection H as <-; now right
          | left; exact (fix_finite_error _ _ _ _ H) ].
Qed.

Lemma strptime_error s e : strptime s = Raise e -> e = ValueError_strptime s.
Proof.
  unfold strptime.
  repeat match goal with
         | |- context [match ?x with _ => _ end] => destruct x
         end; intros [=]; congruence.
Qed.

Lemma decimal_text_error s e : decimal (PStr s) = Raise e -> e = InvalidOperation.
Proof.
  unfold decimal, Decimal_of_string.
  repeat match goal with
         | |- context [match ?x with _ => _ end] => destruct x
         end; intros [=]; congruence.
Qed.

Lemma dec_div_error a b x :
  dec_div a b = Raise x ->
  x = Overflow \/ x = InvalidOperation \/ x = DivisionByZero.
Proof.
  unfold dec_div.
  destruct a as [sa ca ea | sa | sa [] pa], b as [sb cb eb | sb | sb [] pb];
    cbn [check_nans sign_of];
    repeat match goal with
           | |- context [if ?b then _ else _] => destruct b
           | |- context [let '(_, _) := ?p in _] => destruct p
           end;
    intros H;
    first [ discriminate H
          | injection H as <-; auto
          | left; exact (fix_finite_error _ _ _ _ H) ].
Qed.

(** ** The normalizer on a row as read *)

(** A [Decimal] is never equal to a string: the test of the back-fill
    step is false once the amount has been converted. *)
Lemma py_eq_str_decimal d s : py_eq_str (PDec d) s = false.
Proof. reflexivity. Qed.

(** [normalize] step by step, with the types of the intermediate
    values: the dates, the numbers, the rescaling when the description
    starts with the marker, then the action.  The back-fill of the
    amount does not appear: its test never holds. *)
Lemma normalize_eq (raw : RawRow) :
  normalize raw =
  (d <- strptime (date raw) ;;
   st <- strptime (settlement raw) ;;
   q <- decimal (PStr (quantity raw)) ;;
   p <- decimal (PStr (price raw)) ;;
   a <- decimal (PStr (amount raw)) ;;
   q' <- (if re_match_1000THS (description raw)
          then dec_div q (Decimal_of_N 1000) else Ok q) ;;
   act <- (if nonempty (action raw) then Ok (action raw)
           else if re_search_DIST (description raw) then Ok "DIST"
           else Raise (AssertionError (Some (PStr (description raw))))) ;;
   Ok (mkRow act (symbol raw) (description raw) d st q' p a (currency raw))).
Proof.
  destruct raw as [act sym desc dt stl qty prc amt cur].
  unfold normalize, fixup_row, fixup_fields, fixup_action, of_raw.
  row_steps.
  destruct (strptime dt) as [d|e]; [|reflexivity].
  destruct (strptime stl) as [st|e]; [|reflexivity]. row_steps.
  destruct (decimal (PStr qty)) as [q|e]; [|reflexivity].
  destruct (decimal (PStr prc)) as [p|e]; [|reflexivity].
  destruct (decimal (PStr amt)) as [a|e]; [|reflexivity]. row_steps.
  destruct (re_match_1000THS desc); row_steps.
  - destruct (dec_div q (Decimal_of_N 1000)) as [q'|e]; [|reflexivity].
    row_steps.
    destruct (nonempty act) eqn:Hact; row_steps; rewrite ?Hact; row_steps;
      [reflexivity|].
    destruct (re_search_DIST desc); row_steps; rewrite ?Hact; reflexivity.
  - destruct (nonempty act) eqn:Hact; row_steps; rewrite ?Hact; row_steps;
      [reflexivity|].
    destruct (re_search_DIST desc); row_steps; rewrite ?Hact; reflexivity.
Qed.

(** On a row as read, [fixup_row] returns a row with the types of a
    canonical row, and [normalize] fails exactly where [fixup_row]
    does, with the same exception. *)
Lemma fixup_row_canonical raw row :
  fixup_row (of_raw raw) = Ok row -> exists c, to_canonical row = Some c.
Proof.
  destruct raw as [act sym desc dt stl qty prc amt cur].
  unfold fixup_row, fixup_fields, fixup_action, of_raw. row_steps.
  destruct (strptime dt) as [d|e]; [|discriminate].
  destruct (strptime stl) as [st|e]; [|discriminate]. row_steps.
  destruct (decimal (PStr qty)) as [q|e]; [|discriminate].
  destruct (decimal (PStr prc)) as [p|e]; [|discriminate].
  destruct (decimal (PStr amt)) as [a|e]; [|discriminate]. row_steps.
  destruct (re_match_1000THS desc); row_steps.
  - destruct (dec_div q (Decimal_of_N 1000)) as [q'|e]; [|discriminate].
    row_steps.
    destruct (nonempty act) eqn:Hact; row_steps; rewrite ?Hact; row_steps.
    + intros [= <-]. eexists. reflexivity.
    + destruct (re_search_DIST desc); row_steps; rewrite ?Hact;
        [|discriminate].
      intros [= <-]. eexists. reflexivity.
  - destruct (nonempty act) eqn:Hact; row_steps; rewrite ?Hact; row_steps.
    + intros [= <-]. eexists. reflexivity.
    + destruct (re_search_DIST desc); row_steps; rewrite ?Hact;
        [|discriminate].
      intros [= <-]. eexists. reflexivity.
Qed.

Lemma normalize_raises raw e :
  normalize raw = Raise e <-> fixup_row (of_raw raw) = Raise e.
Proof.
  unfold normalize.
  destruct (fixup_row (of_raw raw)) as [row|x] eqn:E; cbn [bind].
  - destruct (fixup_row_canonical raw row E) as [c ->].
    split; discriminate.
  - split; intros [= ->]; reflexivity.
Qed.

(** ** The searches in the description *)

Lemma strip_prefix_spec p s r : strip_prefix p s = Some r <-> s = p ++ r.
Proof.
  revert s. induction p as [|a p IH]; intros s; simpl.
  - split; [intros [= ->]; reflexivity | intros ->; reflexivity].
  - destruct s as [|b s]; [split; discriminate|].
    destruct (Ascii.eqb_spec a b) as [<- | Hab].
    + rewrite IH. split; [intros ->; reflexivity | intros [= ->]; reflexivity].
    + split; [discriminate | intros [= E _]; now elim Hab].
Qed.

Lemma prefix_starts_with p s : String.prefix p s = true <-> starts_with p s.
Proof.
  unfold starts_with. revert s.
  induction p as [|a p IH]; intros [|b s]; simpl.
  - split; [intros _; now exists "" | reflexivity].
  - split; [intros _; now exists (String b s) | reflexivity].
  - split; [discriminate | intros [post E]; discriminate E].
  - destruct (ascii_dec a b) as [<- | Hab].
    + rewrite IH. split; intros [post E]; exists post.
      * now rewrite E.
      * now injection E.
    + split; [discriminate | intros [post E]; injection E as E _].
      now elim Hab.
Qed.

(** The scan for [\bDIST\b] finds exactly the standalone occurrences. *)
Lemma search_DIST_from_spec prev s :
  search_DIST_from prev s = true <->
  exists pre post,
    s = pre ++ "DIST" ++ post
    /\ (if nonempty pre then ends_word pre else prev) = false
    /\ starts_word post = false.
Proof.
  revert prev. induction s as [|c r IH]; intros prev.
  - split; [discriminate|].
    intros (pre & post & E & _).
    apply (f_equal String.length) in E. rewrite length_app in E.
    simpl in E. lia.
  - cbn [search_DIST_from]. rewrite orb_true_iff, IH. split.
    + intros [H | (pre & post & E & Hpre & Hpost)].
      * apply andb_true_iff in H as [Hprev H].
        destruct (strip_prefix "DIST" (String c r)) as [rest|] eqn:Hsp;
          [|discriminate].
        apply strip_prefix_spec in Hsp.
        exists "", rest. repeat split.
        -- exact Hsp.
        -- simpl. now destruct prev.
        -- now destruct (starts_word rest).
      * exists (String c pre), post. repeat split.
        -- simpl. now rewrite E.
        -- simpl. destruct pre; [exact Hpre | exact Hpre].
        -- exact Hpost.
    + intros (pre & post & E & Hpre & Hpost).
      destruct pre as [|c' pre].
      * left. simpl in Hpre. subst prev.
        rewrite (proj2 (strip_prefix_spec "DIST" (String c r) post) E), Hpost.
        reflexivity.
      * right. injection E as -> ->. exists pre, post.
        repeat split; [|exact Hpost].
        simpl in Hpre. destruct pre; exact Hpre.
Qed.

Lemma re_search_DIST_spec s : re_search_DIST s = true <-> standalone_DIST s.
Proof.
  unfold re_search_DIST, standalone_DIST. rewrite search_DIST_from_spec.
  split; intros (pre & post & E & Hpre & Hpost); exists pre, post;
    repeat split; trivial.
  - destruct pre; [reflexivity | exact Hpre].
  - destruct pre; [reflexivity | exact Hpre].
Qed.

Lemma match_amount_some s g :
  match_amount s = Some g ->
  exists run frac post,
    s = run ++ "." ++ frac ++ post /\ g = run ++ "." ++ frac
    /\ nonempty run = true /\ forallb_string is_digit_or_comma run = true
    /\ nonempty frac = true /\ forallb_string is_digit frac = true
    /\ starts is_digit post = false.
Proof.
  unfold match_amount.
  destruct (span_spec is_digit_or_comma s) as (Es & Hrun & _).
  destruct (span is_digit_or_comma s) as [run r]. simpl in Es, Hrun.
  destruct r as [|c r']; [discriminate|].
  destruct (span_spec is_digit r') as (Er & Hfrac & Hpost).
  destruct (span is_digit r') as [frac post]. simpl in Er, Hfrac, Hpost.
  destruct (nonempty run) eqn:Hn1; [|discriminate].
  destruct (Ascii.eqb_spec c "."); [|discriminate]. subst c.
  destruct (nonempty frac) eqn:Hn2; [|discriminate].
  simpl. intros [= <-]. exists run, frac, post.
  repeat split; trivial. now rewrite Es, Er.
Qed.

Lemma starts_point_not_digit_or_comma s :
  starts is_digit_or_comma ("." ++ s) = false.
Proof. reflexivity. Qed.

Lemma span_nonempty p a b :
  nonempty a = true -> forallb_string p a = true ->
  nonempty (fst (span p (a ++ b))) = true.
Proof.
  destruct a as [|c a]; [discriminate|]. simpl. intros _ H.
  apply andb_true_iff in H as [-> _].
  destruct (span p (a ++ b)). reflexivity.
Qed.

Lemma match_amount_complete run frac post :
  nonempty run = true -> forallb_string is_digit_or_comma run = true ->
  nonempty frac = true -> forallb_string is_digit frac = true ->
  match_amount (run ++ "." ++ frac ++ post) <> None.
Proof.
  intros Hn1 Hrun Hn2 Hfrac. unfold match_amount.
  rewrite (span_app _ run _ Hrun (starts_point_not_digit_or_comma _)).
  simpl.
  pose proof (span_nonempty is_digit frac post Hn2 Hfrac) as Hne.
  destruct (span is_digit (frac ++ post)) as [frac' post'].
  simpl in Hne. rewrite Hn1, Hne. discriminate.
Qed.

Lemma re_search_amount_some s g :
  re_search_amount s = Some g ->
  exists pre r, s = pre ++ "$" ++ r /\ match_amount r = Some g.
Proof.
  induction s as [|c s IH]; [discriminate|]. cbn [re_search_amount].
  destruct (Ascii.eqb_spec c "$") as [-> | Hc].
  - destruct (match_amount s) as [g'|] eqn:Hm.
    + intros [= <-]. exists "", s. split; [reflexivity | exact Hm].
    + intros H. destruct (IH H) as (pre & r & -> & Hr).
      exists (String "$" pre), r. split; [reflexivity | exact Hr].
  - intros H. destruct (IH H) as (pre & r & -> & Hr).
    exists (String c pre), r. split; [reflexivity | exact Hr].
Qed.

Lemma re_search_amount_none s :
  re_search_amount s = None ->
  forall pre r, s = pre ++ "$" ++ r -> match_amount r = None.
Proof.
  induction s as [|c s IH]; intros H pre r E.
  - destruct pre; discriminate E.
  - cbn [re_search_amount] in H.
    destruct pre as [|c' pre]; cbn [append] in E; injection E as Ec Es.
    + subst c s. rewrite Ascii.eqb_refl in H.
      destruct (match_amount r); [discriminate | reflexivity].
    + apply (IH) with (pre := pre); [|exact Es].
      destruct (Ascii.eqb c "$"); [|exact H].
      destruct (match_amount s); [discriminate | exact H].
Qed.

(** The search succeeds exactly on the descriptions that contain a
    dollar amount. *)
Lemma re_search_amount_spec s :
  re_search_amount s <> None <-> has_dollar_amount s.
Proof.
  split.
  - destruct (re_search_amount s) as [g|] eqn:H; [intros _ | now intros []].
    destruct (re_search_amount_some s g H) as (pre & r & -> & Hm).
    destruct (match_amount_some r g Hm)
      as (run & frac & post & -> & _ & Hn1 & Hrun & Hn2 & Hfrac & _).
    exists pre, run, frac, post. repeat split; trivial.
    + intros ->. discriminate.
    + intros ->. discriminate.
  - intros (pre & run & frac & post & -> & Hn1 & Hrun & Hn2 & Hfrac) H.
    apply (match_amount_complete run frac post); trivial.
    + destruct run; [now elim Hn1 | reflexivity].
    + destruct frac; [now elim Hn2 | reflexivity].
    + apply (re_search_amount_none _ H pre). reflexivity.
Qed.

(** ** The numbers found in the description *)

Lemma remove_comma_digits run :
  forallb_string is_digit_or_comma run = true ->
  forallb_string is_digit (remove_char "," run) = true.
Proof.
  induction run as [|c run IH]; simpl; [reflexivity|].
  intros H. apply andb_true_iff in H as [Hc Hrun].
  destruct (Ascii.eqb c ",") eqn:E; [now apply IH|].
  simpl. rewrite (IH Hrun), andb_true_r.
  unfold is_digit_or_comma in Hc. rewrite E, orb_false_r in Hc. exact Hc.
Qed.

Lemma remove_comma_digits_id s :
  forallb_string is_digit s = true -> remove_char "," s = s.
Proof.
  intros H. apply remove_comma_plain.
  apply (forallb_string_impl is_digit); [apply is_digit_plain | exact H].
Qed.

(** The value of the text of a dollar amount: the digits without the
    commas, scaled by the number of fraction digits. *)
Lemma decimal_amount_group run frac :
  forallb_string is_digit_or_comma run = true ->
  nonempty frac = true -> forallb_string is_digit frac = true ->
  decimal (PStr (run ++ "." ++ frac))
  = Ok (Finite false (int_of_digits (remove_char "," run ++ frac))
               (0 - Z.of_nat (String.length frac))).
Proof.
  intros Hrun Hn Hfrac. unfold decimal.
  assert (Hne : nonempty (run ++ "." ++ frac) = true)
    by (destruct run; reflexivity).
  rewrite Hne. cbn [negb].
  rewrite remove_char_app.
  change (remove_char "," ("." ++ frac)) with ("." ++ remove_char "," frac).
  rewrite (remove_comma_digits_id frac Hfrac).
  pose proof (remove_comma_digits run Hrun) as Hds.
  set (ds := remove_char "," run) in *.
  pose proof (Decimal_of_string_finite_text false ds (Some frac) None Hds Hfrac)
    as H.
  unfold finite_text in H. cbn [sign_str fraction_text exponent_text
    fraction_digits exponent_value] in H.
  rewrite !app_nil_r in H. cbn [append] in H. apply H.
  destruct ds as [|c ds].
  - destruct frac as [|d frac]; [discriminate|].
    simpl in Hfrac. apply andb_true_iff in Hfrac as [Hd _].
    simpl. now rewrite Hd.
  - simpl in Hds. apply andb_true_iff in Hds as [Hc _].
    simpl. now rewrite Hc.
Qed.

(** The value of a run of digits. *)
Lemma decimal_digits g :
  nonempty g = true -> forallb_string is_digit g = true ->
  decimal (PStr g) = Ok (Finite false (int_of_digits g) 0).
Proof.
  intros Hn Hg. unfold decimal. rewrite Hn. cbn [negb].
  rewrite (remove_comma_digits_id g Hg).
  pose proof (Decimal_of_string_finite_text false g None None Hg eq_refl) as H.
  unfold finite_text in H. cbn [sign_str fraction_text exponent_text
    fraction_digits exponent_value] in H.
  rewrite !app_nil_r in H. cbn [append] in H. apply H.
  destruct g as [|c g]; [discriminate|].
  simpl in Hg. apply andb_true_iff in Hg as [Hc _]. simpl. now rewrite Hc.
Qed.

Lemma search_shares_from_some prev s g :
  search_shares_from prev s = Some g ->
  nonempty g = true /\ forallb_string is_digit g = true.
Proof.
  revert prev. induction s as [|c s IH]; intros prev; [discriminate|].
  cbn [search_shares_from].
  destruct (if prev then None else match_shares (String c s)) as [g'|] eqn:E.
  - intros [= <-]. destruct prev; [discriminate|].
    unfold match_shares in E.
    destruct (span_spec is_digit (String c s)) as (_ & Hall & _).
    destruct (span is_digit (String c s)) as [run r]. simpl in Hall.
    destruct (nonempty run) eqn:Hn; [|discriminate].
    destruct (String.prefix " SHS" r); [|discriminate].
    injection E as <-. now split.
  - apply IH.
Qed.

(** The share count of a description is found without an error. *)
Lemma description_shares_of_ok desc :
  exists o, description_shares_of desc = Ok o.
Proof.
  unfold description_shares_of, group_decimal, re_search_shares.
  destruct (search_shares_from false desc) as [g|] eqn:E; [|now exists None].
  destruct (search_shares_from_some _ _ _ E) as [Hn Hg].
  rewrite (decimal_digits g Hn Hg). cbn. eexists. reflexivity.
Qed.

(** The amount of a description: the value of the leftmost dollar
    amount and its longest run of fraction digits, and nothing when
    there is none. *)
Lemma description_amount_of_eq desc :
  (re_search_amount desc = None /\ description_amount_of desc = Ok None)
  \/ (exists pre run frac post,
        dollar_amount_at desc pre run frac post
        /\ starts is_digit post = false
        /\ re_search_amount desc = Some (run ++ "." ++ frac)
        /\ description_amount_of desc
           = Ok (Some (Finite false
                         (int_of_digits (remove_char "," run ++ frac))
                         (0 - Z.of_nat (String.length frac))))).
Proof.
  unfold description_amount_of, group_decimal.
  destruct (re_search_amount desc) as [g|] eqn:E; [right | now left].
  destruct (re_search_amount_some desc g E) as (pre & r & -> & Hm).
  destruct (match_amount_some r g Hm)
    as (run & frac & post & -> & -> & Hn1 & Hrun & Hn2 & Hfrac & Hpost).
  exists pre, run, frac, post.
  rewrite (decimal_amount_group run frac Hrun Hn2 Hfrac). cbn.
  repeat split; trivial.
  - intros ->. discriminate.
  - intros ->. discriminate.
Qed.

Lemma description_amount_of_ok desc :
  exists o, description_amount_of desc = Ok o.
Proof.
  destruct (description_amount_of_eq desc)
    as [[_ H] | (pre & run & frac & post & _ & _ & _ & H)];
    eexists; exact H.
Qed.

(** ** The loop body *)

(** The loop body is the chain applied to the amount of the
    description: the two searches never fail. *)
Lemma import_row_eq file config st index row da :
  description_amount_of (description row) = Ok da ->
  import_row file config st index row =
  (r <- add_postings config (position_account config st row) row da
          (mkTransaction (mkFileLocation file index) (date row)
                         (narration_of row) []) ;;
   Ok (fst r, position_account config st row)).
Proof.
  intros Hda. unfold import_row. rewrite Hda.
  destruct (description_shares_of_ok (description row)) as [ds ->].
  reflexivity.
Qed.

(** ** Amount back-fill (C1) *)

(** For every row as read, the normalized amount is the amount field
    as [decimal] converts it: the back-fill never replaces it. *)
Lemma normalize_amount_not_backfilled raw c :
  normalize raw = Ok c -> decimal (PStr (amount raw)) = Ok (amount c).
Proof.
  rewrite normalize_eq.
  destruct (strptime (date raw)); [|discriminate].
  destruct (strptime (settlement raw)); [|discriminate].
  destruct (decimal (PStr (quantity raw))); [|discriminate].
  destruct (decimal (PStr (price raw))); [|discriminate].
  destruct (decimal (PStr (amount raw))) as [am|]; [|discriminate].
  cbn [bind].
  destruct (if re_match_1000THS (description raw) then _ else _);
    [|discriminate].
  cbn [bind].
  destruct (if nonempty (action raw) then _ else _); [|discriminate].
  cbn [bind]. intros [= <-]. reflexivity.
Qed.

(** C1 (defect of the code): the row [Buy XYZ], quantity ["10"], price
    ["5.00"], amount ["0"] has an amount field that parses to exactly
    zero, and its normalized amount is still zero, whereas the
    normalized quantity times the normalized price is 50.00.  The test
    [row.amount == '0'] compares the already converted [Decimal] with a
    string and never holds. *)
Theorem backfill_skipped_on_zero_amount :
  decimal (PStr (amount buy_zero_amount_raw)) = Ok (Finite false 0 0)
  /\ normalize buy_zero_amount_raw
     = Ok (mkRow "Buy" "XYZ" "" (mkDate 2013 6 1) (mkDate 2013 6 4)
                 (Finite false 10 0) (Finite false 500 (-2))
                 (Finite false 0 0) "USD")
  /\ dec_mul (Finite false 10 0) (Finite false 500 (-2))
     = Ok (Finite false 5000 (-2))
  /\ Decimal_str (Finite false 5000 (-2)) = "50.00".
Proof. repeat split; vm_compute; reflexivity. Qed.

(** ** Narration of a distribution (C2) *)

(** Whatever the arm, the narration of the entry is the join of the
    ordinary parts: the chain adds postings only. *)
Lemma add_postings_narration config st row da entry r :
  add_postings config st row da entry = Ok r ->
  narration (fst r) = narration entry.
Proof.
  unfold add_postings.
  destruct (classify (action row)) as [[]|]; try discriminate;
    try (intros [= <-]; reflexivity).
  - destruct (assert _ _); [|discriminate]. cbn [bind].
    destruct (local _ _); [|discriminate]. cbn [bind].
    destruct (as_number _); [|discriminate]. cbn [bind].
    destruct (dec_mul _ _); [|discriminate]. cbn [bind].
    destruct (dec_neg _); [|discriminate]. cbn [bind].
    intros [= <-]. reflexivity.
  - destruct (local _ _); [|discriminate]. cbn [bind].
    intros [= <-]. reflexivity.
  - destruct (assert _ _); [|discriminate]. cbn [bind].
    destruct (local _ _); [|discriminate]. cbn [bind].
    intros [= <-]. reflexivity.
  - destruct (assert _ _); [|discriminate]. cbn [bind].
    destruct (dec_neg _); [|discriminate]. cbn [bind].
    intros [= <-]. reflexivity.
Qed.

Lemma import_row_narration file config st index row tx st' :
  import_row file config st index row = Ok (tx, st') ->
  narration tx = narration_of row.
Proof.
  destruct (description_amount_of_ok (description row)) as [da Hda].
  rewrite (import_row_eq _ _ _ _ _ _ Hda).
  destruct (add_postings _ _ _ _ _) as [r|] eqn:E; [|discriminate].
  cbn [bind]. intros [= <- _].
  apply (add_postings_narration _ _ _ _ _ _ E).
Qed.

(** C2 (defect of the code): for the row of the scenario, action
    ["DIST"], amount ["25.00"], price ["2.50"], empty description, the
    entry has the dividend leg -25.00 and the cash leg +25.00 but its
    narration is ["DIST"]: it does not end with ["2.50 per share"].
    The fragment is appended to the list [extra_narration], which is
    not used after the chain. *)
Theorem dist_narration_lacks_price_fragment :
  exists c tx st,
    normalize dist_raw = Ok c
    /\ action c = "DIST"
    /\ Decimal_str (price c) ++ " per share" = "2.50 per share"
    /\ import_row "Activity.xls" sample_config None 0 c = Ok (tx, st)
    /\ postings tx
       = [mkPosting (dividend sample_config) (Finite true 2500 (-2)) "USD" None;
          mkPosting (cash sample_config) (Finite false 2500 (-2)) "USD" None]
    /\ narration tx = "DIST"
    /\ ~ ends_with "2.50 per share" (narration tx).
Proof.
  eexists. eexists. eexists.
  split; [vm_compute; reflexivity|].
  split; [reflexivity|]. split; [vm_compute; reflexivity|].
  split; [vm_compute; reflexivity|].
  split; [reflexivity|]. split; [reflexivity|].
  intros [pre E]. apply (f_equal String.length) in E.
  rewrite length_app in E. simpl in E. lia.
Qed.

(** ** Unit-scale correction (C3) *)

(** C3 (as stated, refuted): the description ["UNITS IN 1000THS"]
    contains the marker, the quantity field ["5000"] parses to 5000,
    and the normalized quantity is 5000, not 5000 / 1000 = 5. *)
Lemma marker_inside_not_rescaled :
  contains "1000THS" (description marker_inside_raw)
  /\ exists c q,
       normalize marker_inside_raw = Ok c
       /\ decimal (PStr (quantity marker_inside_raw)) = Ok q
       /\ dec_div q (Decimal_of_N 1000) = Ok (Finite false 5 0)
       /\ quantity c = Finite false 5000 0
       /\ quantity c <> Finite false 5 0.
Proof.
  split; [exists "UNITS IN ", ""; reflexivity|].
  eexists. eexists.
  split; [vm_compute; reflexivity|].
  split; [vm_compute; reflexivity|].
  split; [vm_compute; reflexivity|].
  split; [reflexivity | discriminate].
Qed.

(** C3 (amended): for every row that normalizes, with [q] the quantity
    field as [decimal] converts it: if the description starts with
    ["1000THS"] the normalized quantity is [q / 1000], and otherwise
    (marker absent, or present but not at the start) it is [q]
    unchanged. *)
Theorem quantity_rescaled_iff_marker_first (raw : RawRow) (c : CanonicalRow) :
  normalize raw = Ok c ->
  exists q,
    decimal (PStr (quantity raw)) = Ok q
    /\ (starts_with "1000THS" (description raw) ->
        dec_div q (Decimal_of_N 1000) = Ok (quantity c))
    /\ (~ starts_with "1000THS" (description raw) -> quantity c = q).
Proof.
  rewrite normalize_eq.
  destruct (strptime (date raw)); [|discriminate].
  destruct (strptime (settlement raw)); [|discriminate].
  destruct (decimal (PStr (quantity raw))) as [q|]; [|discriminate].
  destruct (decimal (PStr (price raw))); [|discriminate].
  destruct (decimal (PStr (amount raw))); [|discriminate].
  cbn [bind]. unfold re_match_1000THS.
  pose proof (prefix_starts_with "1000THS" (description raw)) as Hpre.
  destruct (String.prefix "1000THS" (description raw)).
  - destruct (dec_div q (Decimal_of_N 1000)) as [q'|] eqn:Hdiv;
      [|discriminate].
    cbn [bind].
    destruct (if nonempty (action raw) then _ else _); [|discriminate].
    cbn [bind]. intros [= <-]. exists q. cbn [quantity].
    split; [reflexivity|]. split; [intros _; exact Hdiv|].
    intros H. elim H. now apply Hpre.
  - cbn [bind].
    destruct (if nonempty (action raw) then _ else _); [|discriminate].
    cbn [bind]. intros [= <-]. exists q. cbn [quantity].
    split; [reflexivity|]. split; [|reflexivity].
    intros H. apply Hpre in H. discriminate H.
Qed.

Lemma quantity_rescaled_iff_marker_first_witness :
  exists q,
    decimal (PStr (quantity marker_first_raw)) = Ok q
    /\ (starts_with "1000THS" (description marker_first_raw) ->
        dec_div q (Decimal_of_N 1000) = Ok (Finite false 5 0))
    /\ (~ starts_with "1000THS" (description marker_first_raw) ->
        Finite false 5 0 = q).
Proof.
  apply (quantity_rescaled_iff_marker_first marker_first_raw
           (mkRow "Buy" "XYZ" "1000THS OF A UNIT" (mkDate 2013 6 1)
                  (mkDate 2013 6 4) (Finite false 5 0)
                  (Finite false 500 (-2)) (Finite false 2500 (-2)) "USD")).
  vm_compute. reflexivity.
Defined.

(** ** Normalizing twice (C4) *)

(** What [normalize] guarantees of its result. *)
Lemma normalize_ok_fields raw c :
  normalize raw = Ok c ->
  valid_date (date c) = true /\ valid_date (settlement c) = true
  /\ nonempty (action c) = true
  /\ symbol c = symbol raw /\ description c = description raw
  /\ currency c = currency raw.
Proof.
  rewrite normalize_eq.
  destruct (strptime (date raw)) as [d|] eqn:Hd; [|discriminate].
  destruct (strptime (settlement raw)) as [st|] eqn:Hst; [|discriminate].
  destruct (decimal (PStr (quantity raw))); [|discriminate].
  destruct (decimal (PStr (price raw))); [|discriminate].
  destruct (decimal (PStr (amount raw))); [|discriminate].
  cbn [bind].
  destruct (if re_match_1000THS (description raw) then _ else _);
    [|discriminate].
  cbn [bind].
  destruct (nonempty (action raw)) eqn:Hact.
  - cbn [bind]. intros [= <-]. cbn.
    repeat split; eauto using strptime_valid.
  - destruct (re_search_DIST (description raw)); [|discriminate].
    cbn [bind]. intros [= <-]. cbn.
    repeat split; eauto using strptime_valid.
Qed.

(** C4 (as stated, refuted): the row [marker_first_raw], quantity
    ["5000"] and a description that starts with ["1000THS"], normalizes
    to a row of quantity 5; written back as text and normalized again,
    the quantity is 0.005: the rescale is applied a second time. *)
Lemma renormalizing_rescales_again :
  exists c c',
    normalize marker_first_raw = Ok c
    /\ normalize (normalize_as_raw c) = Ok c'
    /\ quantity c = Finite false 5 0
    /\ quantity c' = Finite false 5 (-3)
    /\ c' <> c.
Proof.
  eexists. eexists.
  split; [vm_compute; reflexivity|].
  split; [vm_compute; reflexivity|].
  split; [reflexivity|]. split; [reflexivity|]. discriminate.
Qed.

(** C4 (amended): for every row that normalizes to [c], writing [c]
    back as text and normalizing again yields [c] exactly when the
    description does not start with ["1000THS"], or dividing the
    quantity of [c] by 1000 gives it back unchanged.  Every other step
    is a no-op on canonical values. *)
Theorem normalize_idempotent_iff (raw : RawRow) (c : CanonicalRow) :
  normalize raw = Ok c ->
  (normalize (normalize_as_raw c) = Ok c
   <-> (~ starts_with "1000THS" (description c)
        \/ dec_div (quantity c) (Decimal_of_N 1000) = Ok (quantity c))).
Proof.
  intros H.
  destruct (normalize_ok_fields raw c H) as (Hd & Hst & Hact & _).
  rewrite normalize_eq. unfold normalize_as_raw.
  cbn [action symbol description date settlement quantity price amount
       currency].
  rewrite (strptime_Date_str _ Hd), (strptime_Date_str _ Hst), !decimal_str.
  cbn [bind]. rewrite Hact. unfold re_match_1000THS.
  pose proof (prefix_starts_with "1000THS" (description c)) as Hpre.
  destruct c as [act sym desc d st q p a cur].
  cbn [action symbol description date settlement quantity price amount
       currency] in *.
  destruct (String.prefix "1000THS" desc).
  - destruct (dec_div q (Decimal_of_N 1000)) as [q'|e]; cbn [bind].
    + split.
      * intros [= ->]. now right.
      * intros [Hn | [= ->]]; [elim Hn; now apply Hpre | reflexivity].
    + split; [discriminate|].
      intros [Hn | Hq]; [elim Hn; now apply Hpre | discriminate Hq].
  - cbn [bind]. split; [|reflexivity].
    intros _. left. intros Hs. apply Hpre in Hs. discriminate Hs.
Qed.

Lemma normalize_idempotent_iff_witness :
  normalize (normalize_as_raw
               (mkRow "Buy" "XYZ" "" (mkDate 2013 6 1) (mkDate 2013 6 4)
                      (Finite false 10 0) (Finite false 500 (-2))
                      (Finite false 5000 (-2)) "USD"))
  = Ok (mkRow "Buy" "XYZ" "" (mkDate 2013 6 1) (mkDate 2013 6 4)
              (Finite false 10 0) (Finite false 500 (-2))
              (Finite false 5000 (-2)) "USD").
Proof.
  apply (normalize_idempotent_iff buy_raw).
  - vm_compute. reflexivity.
  - left. intros [post E]. discriminate E.
Defined.

(** ** Purchases and sales (C5) *)

Lemma nonempty_neq s : s <> "" -> nonempty s = true.
Proof. destruct s; [intros H; now elim H | reflexivity]. Qed.

(** C5: for every canonical row with action ["Buy"] or ["Sell"] and a
    non-empty symbol, the loop body emits a transaction with exactly two
    postings, in this order: [+quantity] units of the symbol on the
    symbol's sub-account of [positions], at the unit cost [price] in
    the row's currency; then [+amount] in the row's currency on the
    cash account. *)
Theorem buy_sell_postings (file : string) (config : Config)
    (st : option Account) (index : nat) (row : CanonicalRow) :
  action row = "Buy" \/ action row = "Sell" ->
  symbol row <> "" ->
  import_row file config st index row
  = Ok (mkTransaction (mkFileLocation file index) (date row)
          (narration_of row)
          [mkPosting
             (account_from_name (name (positions config) ++ ":" ++ symbol row))
             (quantity row) (symbol row)
             (Some (mkCost (price row) (currency row)));
           mkPosting (cash config) (amount row) (currency row) None],
        Some (account_from_name
                (name (positions config) ++ ":" ++ symbol row))).
Proof.
  intros Hact Hsym.
  destruct (description_amount_of_ok (description row)) as [da Hda].
  rewrite (import_row_eq _ _ _ _ _ _ Hda).
  unfold position_account. rewrite (nonempty_neq _ Hsym).
  unfold add_postings.
  destruct Hact as [-> | ->]; reflexivity.
Qed.

Lemma buy_sell_postings_witness :
  import_row "Activity.xls" sample_config None 0
    (mkRow "Buy" "XYZ" "" (mkDate 2013 6 1) (mkDate 2013 6 4)
           (Finite false 10 0) (Finite false 500 (-2))
           (Finite false 5000 (-2)) "USD")
  = Ok (mkTransaction (mkFileLocation "Activity.xls" 0) (mkDate 2013 6 1)
          "Buy -- XYZ -- Settlement: 2013-06-04"
          [mkPosting (mkAccount "Assets:RBC:Positions:XYZ")
             (Finite false 10 0) "XYZ"
             (Some (mkCost (Finite false 500 (-2)) "USD"));
           mkPosting (mkAccount "Assets:RBC:Cash")
             (Finite false 5000 (-2)) "USD" None],
        Some (mkAccount "Assets:RBC:Positions:XYZ")).
Proof.
  apply (buy_sell_postings "Activity.xls" sample_config None 0
           (mkRow "Buy" "XYZ" "" (mkDate 2013 6 1) (mkDate 2013 6 4)
                  (Finite false 10 0) (Finite false 500 (-2))
                  (Finite false 5000 (-2)) "USD")).
  - left. reflexivity.
  - discriminate.
Defined.

(** ** Unknown actions (C6) *)

Lemma find_none {A} (f : A -> bool) l :
  (forall a, f a = false) -> find f l = None.
Proof.
  intros H. induction l as [|x l IH]; simpl; [reflexivity|].
  now rewrite H.
Qed.

Lemma unrecognized_no_arm act :
  ~ In act recognized_actions -> forall a, arm_condition a act = false.
Proof.
  intros H a.
  assert (Hne : forall s, In s recognized_actions -> String.eqb act s = false).
  { intros s Hs. apply String.eqb_neq. intros ->. now apply H. }
  destruct a; simpl; rewrite ?Hne; simpl; auto 12.
Qed.

(** C6: for every canonical row whose action is not one of the nine
    recognized codes, no arm of the chain applies and the loop body
    raises [ValueError] with the message [Unknown action: '<action>'],
    so that no transaction comes out of the row; for every recognized
    code exactly one arm has a true condition, the one the chain
    takes. *)
Theorem unknown_action_raises (file : string) (config : Config)
    (st : option Account) (index : nat) (row : CanonicalRow) :
  (~ In (action row) recognized_actions ->
   (forall a, arm_condition a (action row) = false)
   /\ import_row file config st index row
      = Raise (ValueError ("Unknown action: '" ++ action row ++ "'")))
  /\ (In (action row) recognized_actions ->
      exists a,
        classify (action row) = Some a
        /\ forall a', arm_condition a' (action row) = true <-> a' = a).
Proof.
  split.
  - intros Hn. pose proof (unrecognized_no_arm _ Hn) as Harm.
    split; [exact Harm|].
    destruct (description_amount_of_ok (description row)) as [da Hda].
    rewrite (import_row_eq _ _ _ _ _ _ Hda).
    unfold add_postings, classify. rewrite (find_none _ _ Harm). reflexivity.
  - intros Hin. simpl in Hin.
    repeat (destruct Hin as [<- | Hin]);
      [exists ADJ_RR | exists RTC_RR | exists EXH_AB | exists DIV_F6
       | exists Buy_Sell | exists Buy_Sell | exists SEL_PUR_FF
       | exists SEL_PUR_FF | exists DIST | now elim Hin];
      (split; [reflexivity|]);
      intros a'; destruct a'; split; intros H;
        try reflexivity; try discriminate H.
Qed.

Lemma unknown_action_raises_witness :
  import_row "Activity.xls" sample_config None 0
    (mkRow "FOO" "XYZ" "" (mkDate 2013 6 1) (mkDate 2013 6 1)
           (Finite false 1 0) (Finite false 1 0) (Finite false 1 0) "USD")
  = Raise (ValueError "Unknown action: 'FOO'").
Proof.
  refine (proj2 (proj1 (unknown_action_raises "Activity.xls" sample_config
                          None 0
                          (mkRow "FOO" "XYZ" "" (mkDate 2013 6 1)
                                 (mkDate 2013 6 1) (Finite false 1 0)
                                 (Finite false 1 0) (Finite false 1 0)
                                 "USD")) _)).
  simpl. intros H.
  repeat (destruct H as [H | H]; [discriminate H|]). exact H.
Defined.

(** ** Resolution of the action (C7) *)

(** The steps before the action leave the action and the description
    of a row as read in place. *)
Lemma fixup_fields_keeps raw row1 :
  fixup_fields (of_raw raw) = Ok row1 ->
  action row1 = PStr (action raw)
  /\ description row1 = PStr (description raw).
Proof.
  destruct raw as [act sym desc dt stl qty prc amt cur].
  unfold fixup_fields, of_raw. row_steps.
  destruct (strptime dt) as [d|e]; [|discriminate].
  destruct (strptime stl) as [st|e]; [|discriminate]. row_steps.
  destruct (decimal (PStr qty)) as [q|e]; [|discriminate].
  destruct (decimal (PStr prc)) as [p|e]; [|discriminate].
  destruct (decimal (PStr amt)) as [a|e]; [|discriminate]. row_steps.
  destruct (re_match_1000THS desc); row_steps.
  - destruct (dec_div q (Decimal_of_N 1000)) as [q'|e]; [|discriminate].
    row_steps. intros [= <-]. split; reflexivity.
  - intros [= <-]. split; reflexivity.
Qed.

(** The steps before the action never fail with an assertion that
    carries a text. *)
Lemma fixup_fields_error raw e v :
  fixup_fields (of_raw raw) = Raise e -> e <> AssertionError (Some v).
Proof.
  destruct raw as [act sym desc dt stl qty prc amt cur].
  unfold fixup_fields, of_raw. row_steps.
  destruct (strptime dt) as [d|x] eqn:E1;
    [|intros [= <-]; rewrite (strptime_error _ _ E1); discriminate].
  destruct (strptime stl) as [st|x] eqn:E2;
    [|intros [= <-]; rewrite (strptime_error _ _ E2); discriminate].
  row_steps.
  destruct (decimal (PStr qty)) as [q|x] eqn:E3;
    [|intros [= <-]; rewrite (decimal_text_error _ _ E3); discriminate].
  destruct (decimal (PStr prc)) as [p|x] eqn:E4;
    [|intros [= <-]; rewrite (decimal_text_error _ _ E4); discriminate].
  destruct (decimal (PStr amt)) as [a|x] eqn:E5;
    [|intros [= <-]; rewrite (decimal_text_error _ _ E5); discriminate].
  row_steps.
  destruct (re_match_1000THS desc); row_steps; [|discriminate].
  destruct (dec_div q (Decimal_of_N 1000)) as [q'|x] eqn:E6; [discriminate|].
  intros [= <-].
  destruct (dec_div_error _ _ _ E6) as [-> | [-> | ->]]; discriminate.
Qed.

(** C7: for every row as read with an empty action field: if the
    description contains the standalone token [DIST], [fixup_row] gives
    the row of the earlier steps the action ["DIST"] (and fails only
    where they fail); and [fixup_row] fails with the [AssertionError]
    that carries the description text if and only if the earlier steps
    succeed and the description has no standalone [DIST], that is, the
    action is still empty after the inference. *)
Theorem empty_action_resolution (raw : RawRow) :
  action raw = "" ->
  (standalone_DIST (description raw) ->
   fixup_row (of_raw raw)
   = (row1 <- fixup_fields (of_raw raw) ;;
      Ok (replace_action row1 (PStr "DIST"))))
  /\ (fixup_row (of_raw raw)
      = Raise (AssertionError (Some (PStr (description raw))))
      <-> (exists row1, fixup_fields (of_raw raw) = Ok row1)
          /\ ~ standalone_DIST (description raw)).
Proof.
  intros Hact. unfold fixup_row.
  pose proof (re_search_DIST_spec (description raw)) as Hspec.
  destruct (fixup_fields (of_raw raw)) as [row1|e] eqn:Hfields; cbn [bind].
  - destruct (fixup_fields_keeps raw row1 Hfields) as [Ha Hd].
    unfold fixup_action. rewrite Ha, Hact, Hd.
    cbn [truthy nonempty negb py_text bind].
    destruct (re_search_DIST (description raw));
      cbn [truthy nonempty negb bind assert replace_action description].
    + split; [reflexivity|].
      split; [discriminate|]. intros [_ Hn]. elim Hn. now apply Hspec.
    + rewrite Hd. split.
      * intros Hs. apply Hspec in Hs. discriminate Hs.
      * split; [|reflexivity]. intros _. split; [now exists row1|].
        intros Hs. apply Hspec in Hs. discriminate Hs.
  - split; [reflexivity|]. split.
    + intros [= ->].
      now elim (fixup_fields_error _ _ (PStr (description raw)) Hfields).
    + intros [[row1 [=]] _].
Qed.

Lemma empty_action_resolution_witness :
  fixup_row (of_raw inferred_dist_raw)
  = Ok (mkRow (PStr "DIST") (PStr "XYZ") (PStr "CASH DIST ON 10 SHS")
              (PDate (mkDate 2013 6 1)) (PDate (mkDate 2013 6 1))
              (PDec (Finite false 0 0)) (PDec (Finite false 250 (-2)))
              (PDec (Finite false 2500 (-2))) (PStr "USD")).
Proof.
  refine (eq_trans (proj1 (empty_action_resolution inferred_dist_raw _) _) _).
  - reflexivity.
  - exists "CASH ", " ON 10 SHS". repeat split.
  - vm_compute. reflexivity.
Defined.

(** A description where [DIST] is part of a longer word gives no
    action: the row is refused with its description. *)
Example no_action_refused :
  fixup_row (of_raw no_action_raw)
  = Raise (AssertionError (Some (PStr "REDISTRIBUTION"))).
Proof. vm_compute. reflexivity. Qed.

(** The word boundary is the one of Unicode text: a letter outside
    ASCII next to [DIST] makes it part of a longer word as well, and the
    row is refused. *)
Example accented_word_refused :
  is_word e_acute = true
  /\ re_search_DIST (description accented_dist_raw) = false
  /\ fixup_row (of_raw accented_dist_raw)
     = Raise (AssertionError (Some (PStr (String e_acute "DIST")))).
Proof. vm_compute. repeat split. Qed.

(** The import of a file stops at a row of unknown action. *)
Example unknown_action_stops_import :
  import_excel_file "Activity.xls" sample_config [buy_raw; foo_raw]
  = Raise (ValueError "Unknown action: 'FOO'").
Proof. vm_compute. reflexivity. Qed.

(** ** The amount of the description (C8) *)

(** C8 (as stated, refuted): a dollar figure with a one-digit or a
    three-digit fraction is extracted all the same. *)
Lemma amount_fraction_of_any_length :
  description_amount_of "FEE $5.5 PAID" = Ok (Some (Finite false 55 (-1)))
  /\ description_amount_of "REINV@$37.0400 REC 12/28/12"
     = Ok (Some (Finite false 370400 (-4)))
  /\ Decimal_str (Finite false 55 (-1)) = "5.5".
Proof. repeat split; vm_compute; reflexivity. Qed.

(** C8 (amended): the extraction never fails; it returns a value
    exactly when the description contains a ["$"] followed by one or
    more digits and commas, a point, and one or more digits (a fraction
    of any length), and nothing otherwise; the value is that of the
    leftmost such occurrence with its longest run of fraction digits:
    its text, commas removed, converted by [decimal], which is the
    number of those digits scaled by the length of the fraction. *)
Theorem description_amount_spec (desc : string) :
  (description_amount_of desc = Ok None <-> ~ has_dollar_amount desc)
  /\ ((exists d, description_amount_of desc = Ok (Some d))
      <-> has_dollar_amount desc)
  /\ (forall d,
        description_amount_of desc = Ok (Some d) ->
        exists pre run frac post,
          dollar_amount_at desc pre run frac post
          /\ starts is_digit post = false
          /\ re_search_amount desc = Some (run ++ "." ++ frac)
          /\ decimal (PStr (run ++ "." ++ frac)) = Ok d
          /\ d = Finite false (int_of_digits (remove_char "," run ++ frac))
                        (0 - Z.of_nat (String.length frac))).
Proof.
  pose proof (re_search_amount_spec desc) as Hspec.
  destruct (description_amount_of_eq desc)
    as [[Hnone Hda] | (pre & run & frac & post & Hat & Hpost & Hsome & Hda)].
  - rewrite Hda. split; [|split].
    + split; [|reflexivity]. intros _ Hhas. apply Hspec in Hhas.
      now apply Hhas.
    + split; [intros [d [=]]|]. intros Hhas. apply Hspec in Hhas.
      now elim Hhas.
    + intros d [=].
  - rewrite Hda.
    assert (Hhas : has_dollar_amount desc) by (now exists pre, run, frac, post).
    split; [|split].
    + split; [discriminate | intros Hn; now elim Hn].
    + split; [intros _; exact Hhas | intros _; eexists; reflexivity].
    + intros d [= <-]. exists pre, run, frac, post.
      destruct Hat as (E & Hn1 & Hrun & Hn2 & Hfrac).
      repeat split; trivial.
      apply decimal_amount_group; trivial. now apply nonempty_neq.
Qed.

Lemma description_amount_spec_witness :
  exists d, description_amount_of "REINV@$1,037.04 REC 12/28/12" = Ok (Some d).
Proof.
  apply (proj2 (proj1 (proj2 (description_amount_spec
                                "REINV@$1,037.04 REC 12/28/12")))).
  exists "REINV@", "1,037", "04", " REC 12/28/12".
  repeat split; discriminate.
Defined.

(** ** The dividend arm asserts a non-zero amount (C10) *)

(** C10: for every canonical row with action ["DIV F6"], the loop body
    fails with the bare [AssertionError] of [assert description_amount]
    if and only if the description has no dollar amount or has one
    whose value is zero (["$0.00"], for one): the assertion asks for an
    amount that is present and not zero. *)
Theorem div_f6_asserts_nonzero_amount (file : string) (config : Config)
    (st : option Account) (index : nat) (row : CanonicalRow) :
  action row = "DIV F6" ->
  (import_row file config st index row = Raise (AssertionError None)
   <-> (description_amount_of (description row) = Ok None
        \/ exists d, description_amount_of (description row) = Ok (Some d)
                     /\ is_zero d = true)).
Proof.
  intros Hact.
  destruct (description_amount_of_ok (description row)) as [da Hda].
  rewrite (import_row_eq _ _ _ _ _ _ Hda), Hda.
  unfold add_postings. rewrite Hact.
  change (classify "DIV F6") with (Some DIV_F6). cbv iota.
  destruct da as [d|]; cbn [truthy_opt assert bind].
  - unfold is_zero. destruct (Decimal_bool d) eqn:Hb; cbn [bind negb assert].
    + split.
      * destruct (position_account config st row) as [acct|];
          cbn [local bind as_number]; [|discriminate].
        destruct (dec_mul (quantity row) d) as [t|x] eqn:Hm; cbn [bind].
        -- destruct (dec_neg t) as [n|x] eqn:Hn; cbn [bind]; [discriminate|].
           intros [= ->]. destruct (dec_neg_error _ _ Hn); discriminate.
        -- intros [= ->]. destruct (dec_mul_error _ _ _ Hm); discriminate.
      * intros [[=] | (d' & [= <-] & H)]. rewrite Hb in H. discriminate H.
    + split; [|reflexivity]. intros _. right. exists d.
      split; [reflexivity | now rewrite Hb].
  - split; [|reflexivity]. intros _. now left.
Qed.

Lemma div_f6_asserts_nonzero_amount_witness :
  import_row "Activity.xls" sample_config None 0
    (mkRow "DIV F6" "XYZ" "REINV@$0.00" (mkDate 2013 6 1) (mkDate 2013 6 1)
           (Finite false 3 0) (Finite false 0 0) (Finite false 0 0) "USD")
  = Raise (AssertionError None).
Proof.
  apply (div_f6_asserts_nonzero_amount "Activity.xls" sample_config None 0
           (mkRow "DIV F6" "XYZ" "REINV@$0.00" (mkDate 2013 6 1)
                  (mkDate 2013 6 1) (Finite false 3 0) (Finite false 0 0)
                  (Finite false 0 0) "USD")).
  - reflexivity.
  - right. exists (Finite false 0 (-2)). split; vm_compute; reflexivity.
Defined.

(** A dividend row whose description says ["$0.00"] stops the import
    like one without an amount. *)
Example zero_dividend_stops_import :
  import_excel_file "Activity.xls" sample_config [div_zero_raw]
  = Raise (AssertionError None).
Proof. vm_compute. reflexivity. Qed.

(** ** The position account of a row without a symbol (C9) *)

(** In the arms that post on the position account, the chain succeeds
    only if the variable [account_position] is bound, and the first
    posting it adds is on that account. *)
Lemma add_postings_position config st row da entry r :
  In (action row) position_actions ->
  add_postings config st row da entry = Ok r ->
  exists acct p rest,
    st = Some acct
    /\ postings (fst r) = (postings entry ++ p :: rest)%list
    /\ posting_account p = acct.
Proof.
  intros Hin. unfold add_postings. simpl in Hin.
  destruct Hin as [H | [H | [H | [H | [H | []]]]]]; rewrite <- H.
  - change (classify "DIV F6") with (Some DIV_F6). cbv iota.
    destruct (assert _ _); [|discriminate]. cbn [bind].
    destruct st as [acct|]; [|discriminate]. cbn [local bind].
    destruct (as_number da) as [d|]; [|discriminate]. cbn [bind].
    destruct (dec_mul _ _); [|discriminate]. cbn [bind].
    destruct (dec_neg _) as [n|]; [|discriminate]. cbn [bind].
    intros [= <-]. eexists. eexists. eexists.
    split; [reflexivity|]. cbn.
    rewrite <- List.app_assoc. split; reflexivity.
  - change (classify "Buy") with (Some Buy_Sell). cbv iota.
    destruct st as [acct|]; [|discriminate]. cbn [local bind].
    intros [= <-]. eexists. eexists. eexists.
    split; [reflexivity|]. cbn.
    rewrite <- List.app_assoc. split; reflexivity.
  - change (classify "Sell") with (Some Buy_Sell). cbv iota.
    destruct st as [acct|]; [|discriminate]. cbn [local bind].
    intros [= <-]. eexists. eexists. eexists.
    split; [reflexivity|]. cbn.
    rewrite <- List.app_assoc. split; reflexivity.
  - change (classify "SEL FF") with (Some SEL_PUR_FF). cbv iota.
    destruct (assert _ _); [|discriminate]. cbn [bind].
    destruct st as [acct|]; [|discriminate]. cbn [local bind].
    intros [= <-]. eexists. eexists. exists [].
    split; [reflexivity|]. cbn. split; reflexivity.
  - change (classify "PUR FF") with (Some SEL_PUR_FF). cbv iota.
    destruct (assert _ _); [|discriminate]. cbn [bind].
    destruct st as [acct|]; [|discriminate]. cbn [local bind].
    intros [= <-]. eexists. eexists. exists [].
    split; [reflexivity|]. cbn. split; reflexivity.
Qed.



(** The two behaviours on files: alone, the sale without a symbol
    stops the import on the unbound variable; after the purchase of
    [XYZ], it is posted on the account of [XYZ]. *)
Lemma stale_position_account_files :
  import_excel_file "Activity.xls" sample_config [sell_no_symbol_raw]
  = Raise (UnboundLocalError "account_position")
  /\ option_map (map (fun tx => map posting_account (postings tx)))
       (match import_excel_file "Activity.xls" sample_config
                [buy_raw; sell_no_symbol_raw] with
        | Ok l => Some l
        | Raise _ => None
        end)
     = Some [[mkAccount "Assets:RBC:Positions:XYZ";
              mkAccount "Assets:RBC:Cash"];
             [mkAccount "Assets:RBC:Positions:XYZ";
              mkAccount "Assets:RBC:Cash"]].
Proof. split; vm_compute; reflexivity. Qed.

(** * Further properties of the source *)

(** ** [decimal] *)

(** X1: [decimal] reads back every number as [str] writes it, and
    leaves a value that is already a [Decimal] as it is: converting
    twice is converting once. *)
Theorem decimal_round_trip (d : Decimal) :
  decimal (PStr (Decimal_str d)) = Ok d /\ decimal (PDec d) = Ok d.
Proof. split; [apply decimal_str | reflexivity]. Qed.

Lemma remove_only_commas s :
  forallb_string (fun c => Ascii.eqb c ",") s = true -> remove_char "," s = "".
Proof.
  induction s as [|c s IH]; simpl; [reflexivity|].
  intros H. apply andb_true_iff in H as [-> Hs]. now apply IH.
Qed.

(** X2: grouping commas count for nothing wherever they stand: a field
    with a comma inserted converts like the field without it, as long
    as that one is not empty; but a non-empty field of commas only is
    refused with [InvalidOperation], where the empty field is zero. *)
Theorem decimal_ignores_commas (a b s : string) :
  (nonempty (a ++ b) = true ->
   decimal (PStr (a ++ "," ++ b)) = decimal (PStr (a ++ b)))
  /\ (nonempty s = true ->
      forallb_string (fun c => Ascii.eqb c ",") s = true ->
      decimal (PStr s) = Raise InvalidOperation)
  /\ decimal (PStr "") = Ok Decimal_zero.
Proof.
  split; [|split; [|reflexivity]].
  - intros Hne. unfold decimal. rewrite Hne.
    assert (Hne' : nonempty (a ++ "," ++ b) = true)
      by (destruct a; reflexivity).
    rewrite Hne'. cbn [negb]. rewrite !remove_char_app. reflexivity.
  - intros Hne Hall. unfold decimal. rewrite Hne. cbn [negb].
    rewrite (remove_only_commas s Hall). reflexivity.
Qed.

Lemma decimal_ignores_commas_witness :
  decimal (PStr ("1" ++ "," ++ "234.50")) = decimal (PStr ("1" ++ "234.50")).
Proof.
  apply (proj1 (decimal_ignores_commas "1" "234.50" ",")). reflexivity.
Defined.

(** ** [fixup_row] *)

(** X3: what [fixup_row] guarantees of the row it returns for a row as
    read: the dates are the fields as [strptime] reads them and exist
    in the calendar; the price and the amount are the fields as
    [decimal] converts them (the amount is never recomputed); symbol,
    description and currency are untouched; the action is not empty,
    it is the action field when that is not empty (whatever the
    description says) and ["DIST"] otherwise. *)
Theorem normalize_invariants (raw : RawRow) (c : CanonicalRow) :
  normalize raw = Ok c ->
  strptime (date raw) = Ok (date c) /\ valid_date (date c) = true
  /\ strptime (settlement raw) = Ok (settlement c)
  /\ valid_date (settlement c) = true
  /\ decimal (PStr (price raw)) = Ok (price c)
  /\ decimal (PStr (amount raw)) = Ok (amount c)
  /\ symbol c = symbol raw /\ description c = description raw
  /\ currency c = currency raw
  /\ nonempty (action c) = true
  /\ (action raw <> "" -> action c = action raw)
  /\ (action raw = "" -> action c = "DIST").
Proof.
  intros H.
  destruct (normalize_ok_fields raw c H) as (Hd & Hst & Hact & Hs & Hde & Hc).
  pose proof (normalize_amount_not_backfilled raw c H) as Ham.
  rewrite normalize_eq in H.
  destruct (strptime (date raw)) as [d|]; [|discriminate].
  destruct (strptime (settlement raw)) as [st|]; [|discriminate].
  destruct (decimal (PStr (quantity raw))); [|discriminate].
  destruct (decimal (PStr (price raw))) as [p|]; [|discriminate].
  destruct (decimal (PStr (amount raw))); [|discriminate].
  cbn [bind] in H.
  destruct (if re_match_1000THS (description raw) then _ else _);
    [|discriminate].
  cbn [bind] in H.
  destruct (nonempty (action raw)) eqn:Hne.
  - cbn [bind] in H. injection H as <-. cbn.
    repeat split; trivial.
    intros E. rewrite E in Hne. discriminate Hne.
  - destruct (re_search_DIST (description raw)); [|discriminate].
    cbn [bind] in H. injection H as <-. cbn.
    repeat split; trivial.
    intros Hn. destruct (action raw); [now elim Hn | discriminate Hne].
Qed.

Lemma normalize_invariants_witness :
  nonempty "DIST" = true /\ valid_date (mkDate 2013 6 1) = true.
Proof.
  assert (H : normalize inferred_dist_raw
              = Ok (mkRow "DIST" "XYZ" "CASH DIST ON 10 SHS"
                          (mkDate 2013 6 1) (mkDate 2013 6 1)
                          (Finite false 0 0) (Finite false 250 (-2))
                          (Finite false 2500 (-2)) "USD"))
    by (vm_compute; reflexivity).
  destruct (normalize_invariants inferred_dist_raw _ H)
    as (_ & Hv & _ & _ & _ & _ & _ & _ & _ & Hne & _ & _).
  split; [exact Hne | exact Hv].
Defined.

(** X4: [fixup_row] cannot be applied to its own result: the row it
    returns for a row as read holds a date where [strptime] wants
    text, and a second call raises [TypeError]. *)
Theorem fixup_row_twice_type_error (raw : RawRow) (row : PyRow) :
  fixup_row (of_raw raw) = Ok row -> fixup_row row = Raise TypeError.
Proof.
  intros H. destruct (fixup_row_canonical raw row H) as [c Hc].
  destruct row as [a s d dt st q p am cur]. unfold to_canonical in Hc.
  cbn [action symbol description date settlement quantity price amount
       currency] in Hc.
  destruct a, s, d, dt; try discriminate Hc.
  reflexivity.
Qed.

Lemma fixup_row_twice_type_error_witness :
  fixup_row (mkRow (PStr "Buy") (PStr "XYZ") (PStr "")
                   (PDate (mkDate 2013 6 1)) (PDate (mkDate 2013 6 4))
                   (PDec (Finite false 10 0)) (PDec (Finite false 500 (-2)))
                   (PDec (Finite false 5000 (-2))) (PStr "USD"))
  = Raise TypeError.
Proof.
  apply (fixup_row_twice_type_error buy_raw). vm_compute. reflexivity.
Defined.

Lemma dec_div_1000_error q x :
  dec_div q (Decimal_of_N 1000) = Raise x ->
  x = Overflow \/ x = InvalidOperation.
Proof.
  unfold dec_div, Decimal_of_N.
  destruct q as [s c e | s | s [] p]; cbn [check_nans sign_of];
    try discriminate; try (intros [= <-]; now right).
  change (1000 =? 0)%N with false. cbv iota.
  repeat match goal with
         | |- context [if ?b then _ else _] => destruct b
         | |- context [let '(_, _) := ?p in _] => destruct p
         end;
    intros H; left; exact (fix_finite_error _ _ _ _ H).
Qed.

(** X5: the ways [fixup_row] fails on a row as read: the [ValueError]
    of [strptime] on the date or on the settlement date,
    [InvalidOperation] for a number that does not convert (or a
    signalling NaN to rescale), [Overflow] from the rescale, and the
    [AssertionError] that carries the description; never a
    [TypeError], a division by zero or an unbound variable. *)
Theorem fixup_row_errors (raw : RawRow) (e : exn) :
  fixup_row (of_raw raw) = Raise e -> fixup_row_error raw e.
Proof.
  unfold fixup_row_error.
  destruct raw as [act sym desc dt stl qty prc amt cur].
  unfold fixup_row, fixup_fields, fixup_action, of_raw. row_steps.
  destruct (strptime dt) as [d|x] eqn:E1;
    [|intros [= <-]; rewrite (strptime_error _ _ E1); auto].
  destruct (strptime stl) as [st|x] eqn:E2;
    [|intros [= <-]; rewrite (strptime_error _ _ E2); auto].
  row_steps.
  destruct (decimal (PStr qty)) as [q|x] eqn:E3;
    [|intros [= <-]; rewrite (decimal_text_error _ _ E3); auto].
  destruct (decimal (PStr prc)) as [p|x] eqn:E4;
    [|intros [= <-]; rewrite (decimal_text_error _ _ E4); auto].
  destruct (decimal (PStr amt)) as [a|x] eqn:E5;
    [|intros [= <-]; rewrite (decimal_text_error _ _ E5); auto].
  row_steps.
  assert (Hact : forall row : PyRow,
            action row = PStr act -> description row = PStr desc ->
            fixup_action row = Raise e ->
            e = AssertionError (Some (PStr desc))).
  { intros row Ha Hd. unfold fixup_action. rewrite Ha, Hd.
    cbn [truthy negb py_text bind].
    destruct (nonempty act) eqn:Hne; cbn [negb bind].
    - cbn [truthy assert]. rewrite Hne. cbn [bind]. discriminate.
    - destruct (re_search_DIST desc);
        cbn [truthy nonempty assert bind replace_action description];
        [discriminate|].
      rewrite Hne, Hd. cbn [bind]. now intros [= <-]. }
  destruct (re_match_1000THS desc); row_steps.
  - destruct (dec_div q (Decimal_of_N 1000)) as [q'|x] eqn:E6.
    + row_steps. intros H. right. right. right. right.
      refine (Hact (mkRow _ _ _ _ _ _ _ _ _) eq_refl eq_refl _).
      unfold fixup_action. row_steps. exact H.
    + intros [= <-]. destruct (dec_div_1000_error _ _ E6) as [-> | ->]; auto.
  - intros H. right. right. right. right.
    refine (Hact (mkRow _ _ _ _ _ _ _ _ _) eq_refl eq_refl _).
    unfold fixup_action. row_steps. exact H.
Qed.

Lemma fixup_row_errors_witness :
  fixup_row_error no_action_raw (AssertionError (Some (PStr "REDISTRIBUTION"))).
Proof.
  apply (fixup_row_errors no_action_raw). vm_compute. reflexivity.
Defined.

(** ** The loop body: what every transaction carries *)

Lemma add_postings_basics config st row da entry r :
  add_postings config st row da entry = Ok r ->
  fileloc (fst r) = fileloc entry /\ entry_date (fst r) = entry_date entry.
Proof.
  unfold add_postings.
  destruct (classify (action row)) as [[]|]; try discriminate;
    try (intros [= <-]; split; reflexivity).
  - destruct (assert _ _); [|discriminate]. cbn [bind].
    destruct (local _ _); [|discriminate]. cbn [bind].
    destruct (as_number _); [|discriminate]. cbn [bind].
    destruct (dec_mul _ _); [|discriminate]. cbn [bind].
    destruct (dec_neg _); [|discriminate]. cbn [bind].
    intros [= <-]. split; reflexivity.
  - destruct (local _ _); [|discriminate]. cbn [bind].
    intros [= <-]. split; reflexivity.
  - destruct (assert _ _); [|discriminate]. cbn [bind].
    destruct (local _ _); [|discriminate]. cbn [bind].
    intros [= <-]. split; reflexivity.
  - destruct (assert _ _); [|discriminate]. cbn [bind].
    destruct (dec_neg _); [|discriminate]. cbn [bind].
    intros [= <-]. split; reflexivity.
Qed.

Lemma import_row_entry file config st index row tx st' :
  import_row file config st index row = Ok (tx, st') ->
  fileloc tx = mkFileLocation file index
  /\ entry_date tx = date row
  /\ narration tx = narration_of row
  /\ st' = position_account config st row.
Proof.
  destruct (description_amount_of_ok (description row)) as [da Hda].
  rewrite (import_row_eq _ _ _ _ _ _ Hda).
  destruct (add_postings _ _ _ _ _) as [r|] eqn:E; [|discriminate].
  cbn [bind]. intros [= <- <-].
  destruct (add_postings_basics _ _ _ _ _ _ E) as [Hf Hd].
  pose proof (add_postings_narration _ _ _ _ _ _ E) as Hn.
  repeat split; assumption.
Qed.

(** X6: whatever the action, a transaction that comes out of a row
    carries the file and the index of the row, the date of the row and
    the narration joined from action, symbol, description and
    settlement; and the position account left for the next rows is the
    account of the row's symbol if it has one, the previous one
    otherwise.  Price, quantity and amount never reach the narration. *)
Theorem import_row_basics (file : string) (config : Config)
    (st : option Account) (index : nat) (row : CanonicalRow)
    (tx : Transaction) (st' : option Account) :
  import_row file config st index row = Ok (tx, st') ->
  fileloc tx = mkFileLocation file index
  /\ entry_date tx = date row
  /\ narration tx = narration_of row
  /\ st' = (if nonempty (symbol row)
            then Some (symbol_account config (symbol row)) else st).
Proof. apply import_row_entry. Qed.

Lemma import_row_basics_witness :
  narration (mkTransaction (mkFileLocation "Activity.xls" 0) (mkDate 2013 6 1)
               "ADJ RR -- XYZ -- NAME CHANGE" [])
  = narration_of (mkRow "ADJ RR" "XYZ" "NAME CHANGE" (mkDate 2013 6 1)
                        (mkDate 2013 6 1) (Finite false 0 0)
                        (Finite false 0 0) (Finite false 0 0) "USD").
Proof.
  refine (proj1 (proj2 (proj2 (import_row_basics "Activity.xls" sample_config
                                 None 0 _ _ (Some (mkAccount
                                   "Assets:RBC:Positions:XYZ")) _)))).
  vm_compute. reflexivity.
Defined.

Lemma Date_eqb_eq a b : Date_eqb a b = true <-> a = b.
Proof.
  destruct a as [y m d], b as [y' m' d']. unfold Date_eqb. cbn.
  rewrite !andb_true_iff, !Nat.eqb_eq. split.
  - intros [[-> ->] ->]. reflexivity.
  - intros [= -> -> ->]. repeat split.
Qed.

Lemma join_cons sep x l :
  exists post, join sep (x :: l) = x ++ post.
Proof.
  destruct l as [|y l]; simpl.
  - exists "". now rewrite app_nil_r.
  - eexists. reflexivity.
Qed.

Lemma join_snoc sep l x :
  exists pre, join sep (l ++ [x]) = pre ++ x.
Proof.
  induction l as [|y l (pre & IH)].
  - exists "". reflexivity.
  - cbn [List.app]. cbn [join].
    destruct (l ++ [x])%list as [|z l'] eqn:El.
    + destruct l; discriminate El.
    + exists (y ++ sep ++ pre). rewrite IH, !app_assoc. reflexivity.
Qed.

(** X7: the shape of the narration.  It starts with the action when
    there is one; when the settlement date differs from the trade date
    it ends with the fragment ["Settlement: <date>"], and when the two
    are the same day no settlement fragment is added: the narration is
    the join of the non-empty ones among action, symbol and
    description. *)
Theorem narration_shape (row : CanonicalRow) :
  (nonempty (action row) = true ->
   starts_with (action row) (narration_of row))
  /\ (settlement row <> date row ->
      ends_with ("Settlement: " ++ Date_str (settlement row))
                (narration_of row))
  /\ (settlement row = date row ->
      narration_of row
      = join " -- " (filter_none [Some (action row); Some (symbol row);
                                  Some (description row)])).
Proof.
  unfold narration_of, settlement_of. split; [|split].
  - intros Hne. cbn [filter_none]. rewrite Hne. apply join_cons.
  - intros Hneq.
    destruct (Date_eqb (settlement row) (date row)) eqn:E;
      [apply Date_eqb_eq in E; now elim Hneq|].
    assert (Hsplit :
      filter_none [Some (action row); Some (symbol row);
                   Some (description row);
                   Some ("Settlement: " ++ Date_str (settlement row))]
      = List.app (filter_none [Some (action row); Some (symbol row);
                               Some (description row)])
                 ["Settlement: " ++ Date_str (settlement row)]).
    { cbn [filter_none].
      destruct (nonempty (action row)), (nonempty (symbol row)),
        (nonempty (description row)); reflexivity. }
    rewrite Hsplit. apply join_snoc.
  - intros ->.
    assert (E : Date_eqb (date row) (date row) = true)
      by now apply Date_eqb_eq.
    rewrite E. cbn [filter_none].
    destruct (nonempty (action row)), (nonempty (symbol row)),
      (nonempty (description row)); reflexivity.
Qed.

Lemma narration_shape_witness :
  ends_with ("Settlement: " ++ Date_str (mkDate 2013 6 4))
    (narration_of (mkRow "Buy" "XYZ" "" (mkDate 2013 6 1) (mkDate 2013 6 4)
                         (Finite false 10 0) (Finite false 500 (-2))
                         (Finite false 5000 (-2)) "USD")).
Proof.
  apply (proj1 (proj2 (narration_shape
                         (mkRow "Buy" "XYZ" "" (mkDate 2013 6 1)
                                (mkDate 2013 6 4) (Finite false 10 0)
                                (Finite false 500 (-2))
                                (Finite false 5000 (-2)) "USD")))).
  discriminate.
Defined.

(** ** The loop body: the arms not yet described *)

(** X8: the administrative actions ["ADJ RR"], ["RTC RR"] and
    ["EXH AB"] always give a transaction, with no posting at all,
    whatever the description, the numbers and the earlier rows. *)
Theorem administrative_rows_have_no_postings (file : string)
    (config : Config) (st : option Account) (index : nat)
    (row : CanonicalRow) :
  In (action row) ["ADJ RR"; "RTC RR"; "EXH AB"] ->
  import_row file config st index row
  = Ok (mkTransaction (mkFileLocation file index) (date row)
                      (narration_of row) [],
        position_account config st row).
Proof.
  intros Hin.
  destruct (description_amount_of_ok (description row)) as [da Hda].
  rewrite (import_row_eq _ _ _ _ _ _ Hda). unfold add_postings.
  simpl in Hin. destruct Hin as [<- | [<- | [<- | []]]]; reflexivity.
Qed.

Lemma administrative_rows_have_no_postings_witness :
  import_row "Activity.xls" sample_config None 7
    (mkRow "EXH AB" "" "EXCHANGE $12.50 NaN" (mkDate 2013 6 1)
           (mkDate 2013 6 1) (NaN false true 0) (Finite false 0 0)
           (Finite false 0 0) "USD")
  = Ok (mkTransaction (mkFileLocation "Activity.xls" 7) (mkDate 2013 6 1)
                      "EXH AB -- EXCHANGE $12.50 NaN" [],
        None).
Proof.
  apply (administrative_rows_have_no_postings "Activity.xls" sample_config
           None 7
           (mkRow "EXH AB" "" "EXCHANGE $12.50 NaN" (mkDate 2013 6 1)
                  (mkDate 2013 6 1) (NaN false true 0) (Finite false 0 0)
                  (Finite false 0 0) "USD")).
  simpl. auto.
Defined.

(** X9: for the actions ["SEL FF"], ["PUR FF"] and ["DIST"] the loop
    body fails with the bare [AssertionError] of
    [assert not description_amount] if and only if the description
    holds a dollar amount that is not zero; a zero amount such as
    ["$0.00"] passes like no amount. *)
Theorem transfer_and_dist_refuse_amount (file : string) (config : Config)
    (st : option Account) (index : nat) (row : CanonicalRow) :
  In (action row) ["SEL FF"; "PUR FF"; "DIST"] ->
  (import_row file config st index row = Raise (AssertionError None)
   <-> exists d, description_amount_of (description row) = Ok (Some d)
                 /\ is_zero d = false).
Proof.
  intros Hin.
  destruct (description_amount_of_ok (description row)) as [da Hda].
  rewrite (import_row_eq _ _ _ _ _ _ Hda), Hda. unfold add_postings.
  assert (Hda' : (exists d, Ok da = Ok (Some d) /\ is_zero d = false)
                 <-> truthy_opt da = true).
  { unfold is_zero. destruct da as [d|]; cbn [truthy_opt].
    - split.
      + intros (d' & [= <-] & H). now destruct (Decimal_bool d).
      + intros H. exists d. now rewrite H.
    - split; [intros (d' & [=] & _) | discriminate]. }
  rewrite Hda'. clear Hda'.
  simpl in Hin. destruct Hin as [<- | [<- | [<- | []]]].
  - change (classify "SEL FF") with (Some SEL_PUR_FF). cbv iota.
    destruct (truthy_opt da); cbn [negb assert bind].
    + split; reflexivity.
    + destruct (position_account config st row); cbn [local bind];
        split; discriminate.
  - change (classify "PUR FF") with (Some SEL_PUR_FF). cbv iota.
    destruct (truthy_opt da); cbn [negb assert bind].
    + split; reflexivity.
    + destruct (position_account config st row); cbn [local bind];
        split; discriminate.
  - change (classify "DIST") with (Some DIST). cbv iota.
    destruct (truthy_opt da); cbn [negb assert bind].
    + split; reflexivity.
    + destruct (dec_neg (amount row)) as [n|x] eqn:E; cbn [bind].
      * split; discriminate.
      * split; [|discriminate]. intros [= ->].
        destruct (dec_neg_error _ _ E); discriminate.
Qed.

Lemma transfer_and_dist_refuse_amount_witness :
  import_row "Activity.xls" sample_config None 0
    (mkRow "DIST" "" "CASH DIST $1.25 PAID" (mkDate 2013 6 1)
           (mkDate 2013 6 1) (Finite false 0 0) (Finite false 250 (-2))
           (Finite false 2500 (-2)) "USD")
  = Raise (AssertionError None).
Proof.
  apply (transfer_and_dist_refuse_amount "Activity.xls" sample_config None 0
           (mkRow "DIST" "" "CASH DIST $1.25 PAID" (mkDate 2013 6 1)
                  (mkDate 2013 6 1) (Finite false 0 0)
                  (Finite false 250 (-2)) (Finite false 2500 (-2)) "USD")).
  - simpl. auto.
  - exists (Finite false 125 (-2)). split; vm_compute; reflexivity.
Defined.

(** A number that the context holds is left as it is by the final
    rounding of an operation. *)
Lemma fix_finite_representable s c e :
  representable c e -> fix_finite s c e = Ok (Finite s c e).
Proof.
  intros (Hc & Hd & He & Htop). unfold fix_finite.
  destruct (N.eqb_spec c 0) as [-> | _]; [lia|].
  destruct (Z.ltb_spec Etop (ndigits c + e - prec)) as [H | _]; [lia|].
  destruct (Z.ltb_spec e (Z.max (ndigits c + e - prec) Etiny)) as [H | _];
    [lia | reflexivity].
Qed.

Lemma dec_neg_representable s c e :
  representable c e -> dec_neg (Finite s c e) = Ok (Finite (negb s) c e).
Proof.
  intros H. pose proof H as (Hc & _). unfold dec_neg.
  destruct (N.eqb_spec c 0) as [-> | _]; [lia|].
  now apply fix_finite_representable.
Qed.

Lemma no_amount_found desc :
  ~ has_dollar_amount desc -> description_amount_of desc = Ok None.
Proof.
  intros Hn.
  destruct (description_amount_of_eq desc)
    as [[_ H] | (pre & run & frac & post & Hat & _)]; [exact H|].
  elim Hn. now exists pre, run, frac, post.
Qed.

(** X10: a distribution balances.  For every row with action ["DIST"]
    whose description holds no dollar amount and whose amount is a
    non-zero number that the context holds without rounding, the
    transaction has two postings in the row's currency: minus the
    amount on the dividend account, then the amount on the cash
    account, with the same digits and exponent.  No position account
    is needed: the row goes through with or without a symbol, before
    or after any other row. *)
Theorem dist_legs_balance (file : string) (config : Config)
    (st : option Account) (index : nat) (row : CanonicalRow)
    (s : bool) (c : N) (e : Z) :
  action row = "DIST" ->
  ~ has_dollar_amount (description row) ->
  amount row = Finite s c e ->
  representable c e ->
  import_row file config st index row
  = Ok (mkTransaction (mkFileLocation file index) (date row)
          (narration_of row)
          [mkPosting (dividend config) (Finite (negb s) c e)
                     (currency row) None;
           mkPosting (cash config) (Finite s c e) (currency row) None],
        position_account config st row).
Proof.
  intros Hact Hno Ham Hrep.
  rewrite (import_row_eq _ _ _ _ _ _ (no_amount_found _ Hno)).
  unfold add_postings. rewrite Hact.
  change (classify "DIST") with (Some DIST). cbv iota.
  cbn [truthy_opt negb assert bind].
  rewrite Ham, (dec_neg_representable s c e Hrep). reflexivity.
Qed.

Lemma dist_legs_balance_witness :
  import_row "Activity.xls" sample_config None 0
    (mkRow "DIST" "" "" (mkDate 2013 6 1) (mkDate 2013 6 1)
           (Finite false 0 0) (Finite false 250 (-2))
           (Finite false 2500 (-2)) "USD")
  = Ok (mkTransaction (mkFileLocation "Activity.xls" 0) (mkDate 2013 6 1)
          "DIST"
          [mkPosting (mkAccount "Income:Dividends") (Finite true 2500 (-2))
                     "USD" None;
           mkPosting (mkAccount "Assets:RBC:Cash") (Finite false 2500 (-2))
                     "USD" None],
        None).
Proof.
  apply (dist_legs_balance "Activity.xls" sample_config None 0
           (mkRow "DIST" "" "" (mkDate 2013 6 1) (mkDate 2013 6 1)
                  (Finite false 0 0) (Finite false 250 (-2))
                  (Finite false 2500 (-2)) "USD") false 2500 (-2)).
  - reflexivity.
  - intros (pre & run & frac & post & E & _).
    destruct pre; discriminate E.
  - reflexivity.
  - unfold representable. vm_compute. repeat split; discriminate.
Defined.

(** X11: for every row with action ["SEL FF"] or ["PUR FF"], a symbol
    and no dollar amount in the description, the transaction has a
    single posting: the quantity, in units of the symbol and without a
    cost, on the symbol's sub-account of [positions]; no cash leg. *)
Theorem fund_transfer_single_posting (file : string) (config : Config)
    (st : option Account) (index : nat) (row : CanonicalRow) :
  action row = "SEL FF" \/ action row = "PUR FF" ->
  symbol row <> "" ->
  ~ has_dollar_amount (description row) ->
  import_row file config st index row
  = Ok (mkTransaction (mkFileLocation file index) (date row)
          (narration_of row)
          [mkPosting (symbol_account config (symbol row)) (quantity row)
                     (symbol row) None],
        Some (symbol_account config (symbol row))).
Proof.
  intros Hact Hsym Hno.
  rewrite (import_row_eq _ _ _ _ _ _ (no_amount_found _ Hno)).
  unfold position_account. rewrite (nonempty_neq _ Hsym).
  unfold add_postings. destruct Hact as [-> | ->]; reflexivity.
Qed.

Lemma fund_transfer_single_posting_witness :
  import_row "Activity.xls" sample_config None 3
    (mkRow "PUR FF" "RBF123" "FUND PURCHASE" (mkDate 2013 6 1)
           (mkDate 2013 6 1) (Finite false 12345 (-3)) (Finite false 0 0)
           (Finite false 0 0) "CAD")
  = Ok (mkTransaction (mkFileLocation "Activity.xls" 3) (mkDate 2013 6 1)
          "PUR FF -- RBF123 -- FUND PURCHASE"
          [mkPosting (mkAccount "Assets:RBC:Positions:RBF123")
                     (Finite false 12345 (-3)) "RBF123" None],
        Some (mkAccount "Assets:RBC:Positions:RBF123")).
Proof.
  apply (fund_transfer_single_posting "Activity.xls" sample_config None 3
           (mkRow "PUR FF" "RBF123" "FUND PURCHASE" (mkDate 2013 6 1)
                  (mkDate 2013 6 1) (Finite false 12345 (-3))
                  (Finite false 0 0) (Finite false 0 0) "CAD")).
  - right. reflexivity.
  - discriminate.
  - intros (pre & run & frac & post & E & _).
    repeat (destruct pre as [|? pre]; [discriminate E|];
            injection E as _ E).
    destruct pre; discriminate E.
Defined.

(** X12: a reinvested dividend.  For every row with action ["DIV F6"],
    a symbol, a finite quantity and a description whose dollar amount
    is [da], when the product of the two is a non-zero number that the
    context holds without rounding: the transaction posts the quantity,
    in units of the symbol and at the unit cost [da] in the row's
    currency, on the symbol's sub-account of [positions], then minus
    the exact product on the dividend account. *)
Theorem dividend_postings (file : string) (config : Config)
    (st : option Account) (index : nat) (row : CanonicalRow)
    (sq : bool) (cq ca : N) (eq ea : Z) :
  action row = "DIV F6" ->
  symbol row <> "" ->
  quantity row = Finite sq cq eq ->
  description_amount_of (description row) = Ok (Some (Finite false ca ea)) ->
  representable (cq * ca) (eq + ea) ->
  import_row file config st index row
  = Ok (mkTransaction (mkFileLocation file index) (date row)
          (narration_of row)
          [mkPosting (symbol_account config (symbol row)) (quantity row)
                     (symbol row)
                     (Some (mkCost (Finite false ca ea) (currency row)));
           mkPosting (dividend config)
                     (Finite (negb sq) (cq * ca) (eq + ea))
                     (currency row) None],
        Some (symbol_account config (symbol row))).
Proof.
  intros Hact Hsym Hq Hda Hrep.
  rewrite (import_row_eq _ _ _ _ _ _ Hda).
  unfold position_account. rewrite (nonempty_neq _ Hsym).
  unfold add_postings. rewrite Hact.
  change (classify "DIV F6") with (Some DIV_F6). cbv iota.
  assert (Hca : (ca =? 0)%N = false).
  { destruct Hrep as (Hpos & _). apply N.eqb_neq. intros ->. lia. }
  cbn [truthy_opt Decimal_bool]. rewrite Hca.
  cbn [negb assert bind local as_number]. rewrite Hq.
  unfold dec_mul. cbn [check_nans sign_of]. rewrite xorb_false_r.
  rewrite (fix_finite_representable sq _ _ Hrep). cbn [bind].
  rewrite (dec_neg_representable sq _ _ Hrep). reflexivity.
Qed.

Lemma dividend_postings_witness :
  import_row "Activity.xls" sample_config None 0
    (mkRow "DIV F6" "XYZ" "REINV@$37.04 REC 12/28/12" (mkDate 2013 1 2)
           (mkDate 2013 1 2) (Finite false 1250 (-3)) (Finite false 0 0)
           (Finite false 0 0) "CAD")
  = Ok (mkTransaction (mkFileLocation "Activity.xls" 0) (mkDate 2013 1 2)
          "DIV F6 -- XYZ -- REINV@$37.04 REC 12/28/12"
          [mkPosting (mkAccount "Assets:RBC:Positions:XYZ")
                     (Finite false 1250 (-3)) "XYZ"
                     (Some (mkCost (Finite false 3704 (-2)) "CAD"));
           mkPosting (mkAccount "Income:Dividends")
                     (Finite true 4630000 (-5)) "CAD" None],
        Some (mkAccount "Assets:RBC:Positions:XYZ")).
Proof.
  apply (dividend_postings "Activity.xls" sample_config None 0
           (mkRow "DIV F6" "XYZ" "REINV@$37.04 REC 12/28/12"
                  (mkDate 2013 1 2) (mkDate 2013 1 2)
                  (Finite false 1250 (-3)) (Finite false 0 0)
                  (Finite false 0 0) "CAD")
           false 1250 3704 (-3) (-2)).
  - reflexivity.
  - discriminate.
  - reflexivity.
  - vm_compute. reflexivity.
  - unfold representable. vm_compute. repeat split; discriminate.
Defined.

(** ** The rescale of the quantity is exact *)

Lemma length_string_of_uint u :
  String.length (NilEmpty.string_of_uint u) = Decimal.nb_digits u.
Proof. induction u; simpl; try reflexivity; now f_equal. Qed.

Lemma usize_nb_digits u :
  DecimalPos.Unsigned.usize u = N.of_nat (Decimal.nb_digits u).
Proof.
  induction u; cbn [DecimalPos.Unsigned.usize Decimal.nb_digits];
    try reflexivity; rewrite IHu; lia.
Qed.

Lemma of_lu_upper l :
  (DecimalPos.Unsigned.of_lu l < 10 ^ DecimalPos.Unsigned.usize l)%N.
Proof.
  induction l; cbn [DecimalPos.Unsigned.of_lu DecimalPos.Unsigned.usize];
    try (rewrite N.pow_succ_r'; lia).
  rewrite N.pow_0_r. lia.
Qed.

Lemma to_uint_normal n : Decimal.unorm (N.to_uint n) = N.to_uint n.
Proof.
  rewrite <- (DecimalN.Unsigned.of_to n) at 2.
  now rewrite DecimalN.Unsigned.to_of.
Qed.

(** The number of digits of a positive integer brackets it between two
    powers of ten. *)
Lemma ndigits_bounds n :
  (0 < n)%N ->
  (1 <= ndigits n)%Z
  /\ (pow10 (ndigits n - 1) <= n)%N /\ (n < pow10 (ndigits n))%N.
Proof.
  intros Hn. unfold ndigits, str_of_N, pow10.
  rewrite length_string_of_uint.
  pose proof (DecimalN.Unsigned.of_to n) as Hval.
  pose proof (to_uint_normal n) as Hnorm.
  unfold N.of_uint in Hval. rewrite DecimalPos.Unsigned.of_uint_alt in Hval.
  destruct (N.to_uint n) as [|u|u|u|u|u|u|u|u|u|u] eqn:Eu;
    try (cbn in Hval; lia).
  1: { (* a leading zero: the number is zero *)
    rewrite DecimalFacts.unorm_D0 in Hnorm.
    unfold Decimal.unorm in Hnorm.
    destruct (Decimal.nzhead u) eqn:Ez;
      try (now elim (DecimalFacts.nzhead_nonzero u u); rewrite Ez, Hnorm).
    injection Hnorm as <-. cbn in Hval. lia. }
  all: cbn [Decimal.nb_digits];
    unfold Decimal.rev in Hval; cbn [Decimal.revapp] in Hval;
    rewrite DecimalPos.Unsigned.of_lu_revapp in Hval;
    cbn [DecimalPos.Unsigned.of_lu] in Hval;
    pose proof (of_lu_upper (Decimal.rev u)) as Hup;
    rewrite usize_nb_digits, DecimalFacts.nb_digits_rev in Hup;
    rewrite usize_nb_digits in Hval;
    replace (Z.to_N (Z.of_nat (S (Decimal.nb_digits u)) - 1))
      with (N.of_nat (Decimal.nb_digits u)) by lia;
    replace (Z.to_N (Z.of_nat (S (Decimal.nb_digits u))))
      with (N.succ (N.of_nat (Decimal.nb_digits u))) by lia;
    rewrite N.pow_succ_r';
    split; [lia|]; split; nia.
Qed.

Lemma ndigits_le n k :
  (0 < n)%N -> (0 <= k)%Z -> (n < pow10 k)%N -> (ndigits n <= k)%Z.
Proof.
  intros Hn Hk Hlt. destruct (ndigits_bounds n Hn) as (H1 & Hlo & _).
  unfold pow10 in *.
  assert (H : (10 ^ Z.to_N (ndigits n - 1) < 10 ^ Z.to_N k)%N) by lia.
  apply N.pow_lt_mono_r_iff in H; lia.
Qed.

Lemma pow10_add a b :
  (0 <= a)%Z -> (0 <= b)%Z -> pow10 (a + b) = (pow10 a * pow10 b)%N.
Proof.
  intros Ha Hb. unfold pow10. rewrite Z2N.inj_add by assumption.
  apply N.pow_add_r.
Qed.

Lemma pow10_pos k : (0 < pow10 k)%N.
Proof. unfold pow10. apply N.neq_0_lt_0, N.pow_nonzero. discriminate. Qed.

(** The loop that drops trailing zeros keeps the value, stays within
    its room, and stops early only on a digit that is not zero. *)
Lemma strip_zeros_spec room c0 x c' x' :
  (0 < c0)%N -> strip_zeros room c0 x = (c', x') ->
  (0 < c')%N /\ (x <= x' <= x + Z.of_nat room)%Z
  /\ c0 = (c' * pow10 (x' - x))%N
  /\ ((x' < x + Z.of_nat room)%Z -> (c' mod 10 <> 0)%N).
Proof.
  revert c0 x. induction room as [|room IH]; intros c0 x Hpos; cbn [strip_zeros].
  - intros [= <- <-]. rewrite Z.sub_diag. unfold pow10. cbn.
    split; [exact Hpos|]. split; [lia|]. split; [lia|]. intros H. lia.
  - destruct (N.eqb_spec (c0 mod 10) 0) as [Hmod | Hmod].
    + intros H.
      assert (Hc0 : c0 = (10 * (c0 / 10))%N).
      { rewrite (N.div_mod c0 10) at 1 by discriminate. lia. }
      assert (Hq : (0 < c0 / 10)%N) by lia.
      destruct (IH _ _ Hq H) as (Hc' & Hx & Hval & Hstop).
      split; [exact Hc'|]. split; [lia|]. split.
      * replace (x' - x)%Z with ((x' - (x + 1)) + 1)%Z by lia.
        rewrite pow10_add by lia. change (pow10 1) with 10%N.
        rewrite Hc0 at 1. rewrite Hval. lia.
      * intros Hlt. apply Hstop. lia.
    + intros [= <- <-]. rewrite Z.sub_diag. unfold pow10. cbn.
      split; [exact Hpos|]. split; [lia|]. split; [lia|].
      intros _. exact Hmod.
Qed.

(** Dividing a number of at most [prec] digits by 1000 is exact: same
    sign, and the digits and exponent of the quotient give the
    dividend scaled by [10^-3]. *)
Lemma dec_div_1000_exact s c e :
  (0 < c)%N -> (ndigits c <= prec)%Z -> (Etiny + 3 <= e)%Z -> (e <= Etop)%Z ->
  exists c' e',
    dec_div (Finite s c e) (Decimal_of_N 1000) = Ok (Finite s c' e')
    /\ (e - 3 <= e' <= e)%Z /\ c = (c' * pow10 (e' - (e - 3)))%N.
Proof.
  intros Hc Hd Hlo Hhi.
  destruct (ndigits_bounds c Hc) as (Hd1 & _ & Hup).
  unfold dec_div, Decimal_of_N. cbn [check_nans sign_of].
  rewrite xorb_false_r.
  change (1000 =? 0)%N with false. cbv iota.
  destruct (N.eqb_spec c 0) as [-> | _]; [lia|].
  change (ndigits 1000) with 4%Z.
  set (shift := (4 - ndigits c + prec + 1)%Z).
  assert (Hshift : (5 <= shift)%Z) by (unfold shift, prec in *; lia).
  destruct (Z.leb_spec 0 shift) as [_ | H]; [|lia].
  assert (Hpow : pow10 shift = (pow10 (shift - 3) * 1000)%N).
  { replace shift with ((shift - 3) + 3)%Z at 1 by lia.
    rewrite pow10_add by lia. reflexivity. }
  rewrite Hpow, N.mul_assoc.
  rewrite N.Div0.mod_mul, N.div_mul by discriminate.
  cbn [N.eqb negb].
  destruct (strip_zeros _ _ _) as [c' e'] eqn:Es.
  assert (Hpos : (0 < c * pow10 (shift - 3))%N).
  { pose proof (pow10_pos (shift - 3)). nia. }
  destruct (strip_zeros_spec _ _ _ _ _ Hpos Es) as (Hc' & Hx & Hval & Hstop).
  rewrite Z2Nat.id in Hx, Hstop by lia.
  set (k := (e' - (e - 0 - shift))%Z) in *.
  assert (Hk : (shift - 3 <= k)%Z).
  { destruct (Z.le_gt_cases (shift - 3) k) as [H | H]; [exact H|].
    exfalso. apply Hstop; [lia|].
    replace (shift - 3)%Z with (((shift - 3) - k - 1) + 1 + k)%Z in Hval
      by lia.
    rewrite !pow10_add in Hval by lia.
    change (pow10 1) with 10%N in Hval.
    rewrite !N.mul_assoc in Hval.
    apply N.mul_cancel_r in Hval;
      [|pose proof (pow10_pos k); lia].
    rewrite <- Hval, N.Div0.mod_mul. reflexivity. }
  assert (Hc'c : c = (c' * pow10 (k - (shift - 3)))%N).
  { replace k with ((k - (shift - 3)) + (shift - 3))%Z in Hval at 1 by lia.
    rewrite pow10_add in Hval by lia. rewrite N.mul_assoc in Hval.
    apply N.mul_cancel_r in Hval;
      [exact Hval | pose proof (pow10_pos (shift - 3)); lia]. }
  assert (Hle : (c' <= c)%N).
  { pose proof (pow10_pos (k - (shift - 3))). nia. }
  assert (Hd' : (ndigits c' <= prec)%Z).
  { apply ndigits_le; [exact Hc' | unfold prec; lia|].
    assert (pow10 (ndigits c) <= pow10 prec)%N.
    { unfold pow10. apply N.pow_le_mono_r; [discriminate | lia]. }
    lia. }
  exists c', e'.
  rewrite fix_finite_representable.
  - split; [reflexivity|]. split; [unfold k in *; lia|].
    replace (e' - (e - 3))%Z with (k - (shift - 3))%Z by (unfold k; lia).
    exact Hc'c.
  - unfold representable. unfold k in *. repeat split; lia.
Qed.

(** X13: the rescale of a row in thousandths is exact.  For every row
    as read that normalizes, whose description starts with ["1000THS"]
    and whose quantity field converts to a finite non-zero number of at
    most 28 digits with an exponent in the range of the context, the
    normalized quantity has the same sign and its digits [c'] and
    exponent [e'] give the field scaled by [10^-3], with no
    rounding: [c' * 10^e' = c * 10^(e-3)], the exponent being lowered by
    at most 3. *)
Theorem rescale_is_exact (raw : RawRow) (row : CanonicalRow)
    (s : bool) (c : N) (e : Z) :
  normalize raw = Ok row ->
  starts_with "1000THS" (description raw) ->
  decimal (PStr (quantity raw)) = Ok (Finite s c e) ->
  (0 < c)%N -> (ndigits c <= prec)%Z ->
  (Etiny + 3 <= e)%Z -> (e <= Etop)%Z ->
  exists c' e',
    quantity row = Finite s c' e'
    /\ (e - 3 <= e' <= e)%Z /\ c = (c' * pow10 (e' - (e - 3)))%N.
Proof.
  intros Hnorm Hmark Hq Hc Hd Hlo Hhi.
  destruct (dec_div_1000_exact s c e Hc Hd Hlo Hhi)
    as (c' & e' & Hdiv & He' & Hval).
  exists c', e'. split; [|split; assumption].
  rewrite normalize_eq in Hnorm.
  destruct (strptime (date raw)); [|discriminate].
  destruct (strptime (settlement raw)); [|discriminate].
  rewrite Hq in Hnorm.
  destruct (decimal (PStr (price raw))); [|discriminate].
  destruct (decimal (PStr (amount raw))); [|discriminate].
  cbn [bind] in Hnorm. unfold re_match_1000THS in Hnorm.
  rewrite (proj2 (prefix_starts_with _ _) Hmark), Hdiv in Hnorm.
  cbn [bind] in Hnorm.
  destruct (if nonempty (action raw) then _ else _); [|discriminate].
  cbn [bind] in Hnorm. injection Hnorm as <-. reflexivity.
Qed.

Lemma rescale_is_exact_witness :
  exists c' e',
    Finite false 5 0 = Finite false c' e'
    /\ (0 - 3 <= e' <= 0)%Z /\ 5000%N = (c' * pow10 (e' - (0 - 3)))%N.
Proof.
  apply (rescale_is_exact marker_first_raw
           (mkRow "Buy" "XYZ" "1000THS OF A UNIT" (mkDate 2013 6 1)
                  (mkDate 2013 6 4) (Finite false 5 0)
                  (Finite false 500 (-2)) (Finite false 2500 (-2)) "USD")
           false 5000 0).
  - vm_compute. reflexivity.
  - exists " OF A UNIT". reflexivity.
  - vm_compute. reflexivity.
  - reflexivity.
  - vm_compute. discriminate.
  - vm_compute. discriminate.
  - vm_compute. discriminate.
Defined.

(** ** The loop over the rows of a file *)

Lemma import_rows_out file config rdr :
  forall st idx acc out,
    import_rows file config st idx rdr acc = Ok out ->
    exists new,
      out = (acc ++ new)%list /\ List.length new = List.length rdr
      /\ forall i tx,
           nth_error new i = Some tx ->
           exists raw row,
             nth_error rdr i = Some raw /\ normalize raw = Ok row
             /\ fileloc tx = mkFileLocation file (idx + i)
             /\ entry_date tx = date row
             /\ narration tx = narration_of row.
Proof.
  induction rdr as [|raw rest IH]; intros st idx acc out; cbn [import_rows].
  - intros [= <-]. exists []. rewrite List.app_nil_r.
    split; [reflexivity|]. split; [reflexivity|].
    intros [|i] tx H; discriminate H.
  - destruct (normalize raw) as [row|] eqn:Hn; [|discriminate]. cbn [bind].
    destruct (import_row file config st idx row) as [[tx0 st0]|] eqn:Hr;
      [|discriminate].
    cbn [bind fst snd]. intros H.
    destruct (IH _ _ _ _ H) as (new & -> & Hlen & Hnth).
    exists (tx0 :: new). rewrite <- List.app_assoc.
    split; [reflexivity|]. split; [cbn; now rewrite Hlen|].
    intros [|i] tx Htx.
    + injection Htx as <-. exists raw, row.
      destruct (import_row_entry _ _ _ _ _ _ _ Hr) as (Hf & Hd & Hnar & _).
      rewrite Nat.add_0_r. repeat split; assumption.
    + destruct (Hnth i tx Htx) as (raw' & row' & H1 & H2 & H3 & H4 & H5).
      exists raw', row'. replace (idx + S i)%nat with (S idx + i)%nat by lia.
      repeat split; assumption.
Qed.

(** X14: a file that imports gives one transaction per row, in the
    order of the rows: the transaction at position [i] carries the file
    name and the index [i], and the date and the narration of row [i]
    as normalized. *)
Theorem import_one_transaction_per_row (file : string) (config : Config)
    (rdr : list RawRow) (out : list Transaction) :
  import_excel_file file config rdr = Ok out ->
  List.length out = List.length rdr
  /\ forall i tx,
       nth_error out i = Some tx ->
       exists raw row,
         nth_error rdr i = Some raw /\ normalize raw = Ok row
         /\ fileloc tx = mkFileLocation file i
         /\ entry_date tx = date row
         /\ narration tx = narration_of row.
Proof.
  unfold import_excel_file. intros H.
  destruct (import_rows_out _ _ _ _ _ _ _ H) as (new & -> & Hlen & Hnth).
  split; [exact Hlen | exact Hnth].
Qed.

Lemma import_one_transaction_per_row_witness :
  List.length [mkTransaction (mkFileLocation "Activity.xls" 0) (mkDate 2013 6 1)
            "ADJ RR -- XYZ" []]
  = List.length [mkRow "ADJ RR" "XYZ" "" "2013-06-01" "2013-06-01" "" "" ""
                  "USD" : RawRow].
Proof.
  refine (proj1 (import_one_transaction_per_row "Activity.xls" sample_config
                   _ _ _)).
  vm_compute. reflexivity.
Defined.

Lemma import_rows_app file config l1 l2 :
  forall st idx acc,
    (forall e, import_rows file config st idx l1 acc = Raise e ->
               import_rows file config st idx (l1 ++ l2) acc = Raise e)
    /\ (forall out,
          import_rows file config st idx (l1 ++ l2) acc = Ok out ->
          exists out1 new2,
            import_rows file config st idx l1 acc = Ok out1
            /\ out = (out1 ++ new2)%list).
Proof.
  induction l1 as [|raw rest IH]; intros st idx acc.
  - split; [discriminate|]. intros out H. cbn [List.app] in H.
    destruct (import_rows_out _ _ _ _ _ _ _ H) as (new & -> & _).
    exists acc, new. split; reflexivity.
  - cbn [List.app import_rows].
    destruct (normalize raw) as [row|]; cbn [bind];
      [|split; [trivial | discriminate]].
    destruct (import_row file config st idx row) as [r|]; cbn [bind];
      [|split; [trivial | discriminate]].
    apply IH.
Qed.

(** X15: the first row that fails stops the import with its error,
    whatever follows it; and when a file imports, so does every
    beginning of it, with the same transactions: the rows are handled
    one after the other and a row never changes what came before. *)
Theorem import_stops_at_first_error (file : string) (config : Config)
    (l1 l2 : list RawRow) :
  (forall e, import_excel_file file config l1 = Raise e ->
             import_excel_file file config (l1 ++ l2) = Raise e)
  /\ (forall out,
        import_excel_file file config (l1 ++ l2) = Ok out ->
        import_excel_file file config l1 = Ok (firstn (List.length l1) out)).
Proof.
  unfold import_excel_file.
  destruct (import_rows_app file config l1 l2 None 0%nat []) as [Herr Hok].
  split; [exact Herr|].
  intros out H. destruct (Hok out H) as (out1 & new2 & H1 & ->).
  rewrite H1. f_equal.
  destruct (import_rows_out _ _ _ _ _ _ _ H1) as (new & -> & Hlen & _).
  cbn [List.app]. rewrite <- Hlen.
  rewrite List.firstn_app, Nat.sub_diag, List.firstn_all. cbn.
  now rewrite List.app_nil_r.
Qed.

Lemma import_stops_at_first_error_witness :
  import_excel_file "Activity.xls" sample_config
    ([buy_raw; foo_raw] ++ [dist_raw])
  = Raise (ValueError "Unknown action: 'FOO'").
Proof.
  apply (proj1 (import_stops_at_first_error "Activity.xls" sample_config
                  [buy_raw; foo_raw] [dist_raw])).
  vm_compute. reflexivity.
Defined.

Lemma normalize_keeps_action raw row :
  normalize raw = Ok row ->
  symbol row = symbol raw
  /\ (nonempty (action raw) = true -> action row = action raw).
Proof.
  rewrite normalize_eq.
  destruct (strptime (date raw)); [|discriminate].
  destruct (strptime (settlement raw)); [|discriminate].
  destruct (decimal (PStr (quantity raw))); [|discriminate].
  destruct (decimal (PStr (price raw))); [|discriminate].
  destruct (decimal (PStr (amount raw))); [|discriminate].
  cbn [bind].
  destruct (if re_match_1000THS (description raw) then _ else _);
    [|discriminate].
  cbn [bind].
  destruct (nonempty (action raw)).
  - cbn [bind]. intros [= <-]. split; reflexivity.
  - destruct (re_search_DIST (description raw)); [|discriminate].
    cbn [bind]. intros [= <-]. split; [reflexivity | discriminate].
Qed.

Lemma position_actions_nonempty act :
  In act position_actions -> nonempty act = true.
Proof.
  simpl. intros [<- | [<- | [<- | [<- | [<- | []]]]]]; reflexivity.
Qed.

Lemma import_rows_positions file config rdr :
  forall seen idx acc out,
    import_rows file config (option_map (symbol_account config) seen)
                idx rdr acc = Ok out ->
    forall i raw tx,
      nth_error rdr i = Some raw ->
      nth_error out (List.length acc + i) = Some tx ->
      In (action raw) position_actions ->
      exists sym p rest,
        last_symbol seen (firstn (S i) rdr) = Some sym
        /\ postings tx = p :: rest
        /\ posting_account p = symbol_account config sym.
Proof.
  induction rdr as [|raw0 rest0 IH]; intros seen idx acc out H i raw tx Hi;
    [destruct i; discriminate Hi|].
  cbn [import_rows] in H.
  destruct (normalize raw0) as [row|] eqn:Hn; [|discriminate]. cbn [bind] in H.
  destruct (import_row file config _ idx row) as [[tx0 st0]|] eqn:Hr;
    [|discriminate].
  cbn [bind fst snd] in H.
  destruct (normalize_keeps_action _ _ Hn) as [Hsym Hact].
  destruct (import_row_entry _ _ _ _ _ _ _ Hr) as (_ & _ & _ & Hst).
  assert (Hst' : st0 = option_map (symbol_account config)
                         (if nonempty (symbol raw0) then Some (symbol raw0)
                          else seen)).
  { rewrite Hst. unfold position_account. rewrite Hsym.
    destruct (nonempty (symbol raw0)); reflexivity. }
  destruct i as [|i].
  - injection Hi as <-. intros Htx Hin. rewrite Nat.add_0_r in Htx.
    destruct (import_rows_out _ _ _ _ _ _ _ H) as (new & -> & _).
    rewrite <- List.app_assoc in Htx.
    rewrite List.nth_error_app2, Nat.sub_diag in Htx by lia.
    injection Htx as <-.
    cbn [firstn last_symbol].
    destruct (description_amount_of_ok (description row)) as [da Hda].
    rewrite (import_row_eq _ _ _ _ _ _ Hda) in Hr.
    destruct (add_postings _ _ _ _ _) as [r|] eqn:E; [|discriminate].
    cbn [bind] in Hr. injection Hr as <- _.
    assert (Hin' : In (action row) position_actions)
      by (rewrite (Hact (position_actions_nonempty _ Hin)); exact Hin).
    destruct (add_postings_position _ _ _ _ _ _ Hin' E)
      as (acct & p & rest & Hacct & Hp & Hpa).
    rewrite <- Hst, Hst' in Hacct.
    destruct (if nonempty (symbol raw0) then Some (symbol raw0) else seen)
      as [sym|]; [|discriminate].
    injection Hacct as <-.
    exists sym, p, rest. repeat split; assumption.
  - intros Htx Hin. cbn [nth_error] in Hi.
    rewrite Hst' in H.
    cbn [firstn last_symbol].
    apply (IH _ _ _ _ H i raw tx Hi); [|exact Hin].
    rewrite List.length_app. cbn [List.length].
    replace (List.length acc + 1 + i)%nat with (List.length acc + S i)%nat by lia.
    exact Htx.
Qed.

(** X16: in a file that imports, the position account of a row whose
    action posts on it (["DIV F6"], ["Buy"], ["Sell"], ["SEL FF"],
    ["PUR FF"]) is the sub-account of the last symbol seen up to and
    including that row: the row's own symbol when it has one, the
    symbol of the nearest earlier row with one otherwise; the first
    posting of the row's transaction is on that account. *)
Theorem position_account_follows_last_symbol (file : string)
    (config : Config) (rdr : list RawRow) (out : list Transaction)
    (i : nat) (raw : RawRow) (tx : Transaction) :
  import_excel_file file config rdr = Ok out ->
  nth_error rdr i = Some raw ->
  nth_error out i = Some tx ->
  In (action raw) position_actions ->
  exists sym p rest,
    last_symbol None (firstn (S i) rdr) = Some sym
    /\ postings tx = p :: rest
    /\ posting_account p = symbol_account config sym.
Proof.
  unfold import_excel_file. intros H Hi Htx Hin.
  exact (import_rows_positions file config rdr None 0%nat [] out H
           i raw tx Hi Htx Hin).
Qed.

Lemma position_account_follows_last_symbol_witness :
  exists sym p rest,
    last_symbol None (firstn 2 [buy_raw; sell_no_symbol_raw]) = Some sym
    /\ postings
         (mkTransaction (mkFileLocation "Activity.xls" 1) (mkDate 2013 6 2)
            "Sell -- Settlement: 2013-06-05"
            [mkPosting (mkAccount "Assets:RBC:Positions:XYZ")
                       (Finite true 4 0) ""
                       (Some (mkCost (Finite false 600 (-2)) "USD"));
             mkPosting (mkAccount "Assets:RBC:Cash")
                       (Finite false 2400 (-2)) "USD" None])
       = p :: rest
    /\ posting_account p = symbol_account sample_config sym.
Proof.
  refine (position_account_follows_last_symbol "Activity.xls" sample_config
            [buy_raw; sell_no_symbol_raw] _ 1 sell_no_symbol_raw _ _ _ _ _).
  - vm_compute. reflexivity.
  - reflexivity.
  - reflexivity.
  - simpl. auto.
Defined.

(** ** [is_matching_file] *)

Lemma match_digits_spec k s r :
  match_digits k s = Some r <->
  exists d, s = d ++ r /\ String.length d = k
            /\ forallb_string is_digit d = true.
Proof.
  revert s. induction k as [|k IH]; intros s; cbn [match_digits].
  - split.
    + intros [= ->]. exists "". repeat split.
    + intros (d & -> & Hl & _). destruct d; [reflexivity | discriminate Hl].
  - destruct s as [|c s].
    + split; [discriminate|]. intros (d & E & Hl & _).
      destruct d; discriminate.
    + destruct (is_digit c) eqn:Hc.
      * rewrite IH. split.
        -- intros (d & -> & Hl & Hd). exists (String c d).
           cbn. rewrite Hc, Hl, Hd. repeat split.
        -- intros (d & E & Hl & Hd). destruct d as [|c' d]; [discriminate Hl|].
           cbn in E, Hl, Hd. injection E as <- ->. injection Hl as Hl.
           apply andb_true_iff in Hd as [_ Hd]. exists d. repeat split; trivial.
      * split; [discriminate|]. intros (d & E & Hl & Hd).
        destruct d as [|c' d]; [discriminate Hl|].
        cbn in E, Hd. injection E as <- _.
        rewrite Hc in Hd. discriminate Hd.
Qed.

Lemma match_activity_spec s :
  match_activity s = true <->
  exists d1 d2 post, activity_marker_at s "" d1 d2 post.
Proof.
  unfold match_activity, activity_marker_at. split.
  - destruct (strip_prefix "Activity" s) as [r1|] eqn:E1; [|discriminate].
    destruct (match_digits 8 r1) as [r2|] eqn:E2; [|discriminate].
    destruct (strip_prefix " - " r2) as [r3|] eqn:E3; [|discriminate].
    destruct (match_digits 8 r3) as [r4|] eqn:E4; [|discriminate].
    intros _.
    apply strip_prefix_spec in E1, E3.
    apply match_digits_spec in E2 as (d1 & -> & Hl1 & Hd1).
    apply match_digits_spec in E4 as (d2 & -> & Hl2 & Hd2).
    exists d1, d2, r4. subst s r2. repeat split; trivial.
  - intros (d1 & d2 & post & -> & Hl1 & Hd1 & Hl2 & Hd2).
    assert (E1 : strip_prefix "Activity"
                   ("" ++ "Activity" ++ d1 ++ " - " ++ d2 ++ post)
                 = Some (d1 ++ " - " ++ d2 ++ post))
      by (apply strip_prefix_spec; reflexivity).
    assert (E2 : match_digits 8 (d1 ++ " - " ++ d2 ++ post)
                 = Some (" - " ++ d2 ++ post))
      by (apply match_digits_spec; exists d1; repeat split; trivial).
    assert (E3 : strip_prefix " - " (" - " ++ d2 ++ post) = Some (d2 ++ post))
      by (apply strip_prefix_spec; reflexivity).
    assert (E4 : match_digits 8 (d2 ++ post) = Some post)
      by (apply match_digits_spec; exists d2; repeat split; trivial).
    rewrite E1, E2, E3, E4. reflexivity.
Qed.

Lemma re_search_activity_spec s :
  re_search_activity s = true <->
  exists pre d1 d2 post, activity_marker_at s pre d1 d2 post.
Proof.
  induction s as [|c s IH].
  - cbn [re_search_activity]. rewrite orb_false_r, match_activity_spec.
    split.
    + intros (d1 & d2 & post & H). now exists "", d1, d2, post.
    + intros (pre & d1 & d2 & post & E & H).
      destruct pre; [|discriminate E]. now exists d1, d2, post.
  - cbn [re_search_activity]. rewrite orb_true_iff, match_activity_spec, IH.
    split.
    + intros [(d1 & d2 & post & H) | (pre & d1 & d2 & post & E & H)].
      * now exists "", d1, d2, post.
      * exists (String c pre), d1, d2, post. split; [|exact H].
        cbn. now rewrite E.
    + intros (pre & d1 & d2 & post & E & H). destruct pre as [|c' pre].
      * left. exists d1, d2, post. now split.
      * right. cbn in E. injection E as _ E.
        exists pre, d1, d2, post. now split.
Qed.

(** X17: [is_matching_file] accepts a file exactly when its type is
    ["application/vnd.ms-excel"] and its contents hold, anywhere, the
    word [Activity] followed by eight digits, [" - "] and eight more
    digits; any other type is refused whatever the contents. *)
Theorem is_matching_file_spec (contents filetype : string) :
  is_matching_file contents filetype = true <->
  filetype = "application/vnd.ms-excel"
  /\ exists pre d1 d2 post, activity_marker_at contents pre d1 d2 post.
Proof.
  unfold is_matching_file.
  rewrite andb_true_iff, String.eqb_eq, re_search_activity_spec.
  reflexivity.
Qed.

Lemma is_matching_file_spec_witness :
  is_matching_file "<Worksheet ss:Name='Activity20130101 - 20130131'>"
                   "application/vnd.ms-excel" = true.
Proof.
  apply (proj2 (is_matching_file_spec _ _)). split; [reflexivity|].
  exists "<Worksheet ss:Name='", "20130101", "20130131", "'>".
  repeat split.
Defined.
